(** * TaskTracker: a shallow embedding of the task store and its persistence

    The repository holds two Python files.  [testfile.py] is the complete
    program (Task, TaskTracker, CLI); [TaskTracker.py] is a second, shorter
    version of the Task entity and of the start of the store.  Both are
    embedded below, each in a module named after its file.

    Python values are modelled dynamically, as the code handles them: a
    field of a task holds whatever value was put there.  The values covered
    are the JSON scalars without floating point (None, booleans, integers,
    text); nested lists and objects as field values are outside the model.
    Text is modelled by [string], each character standing for the code
    point of its number (0 to 255); text with higher code points is outside
    the model.  Integers are unbounded, as in Python.  CPython converts
    between integers and decimal text only up to 4300 digits: the limit
    is part of [int_builtin], which reads the id on the command line, and
    of [str_builtin]; the conversions the store makes on its own keys and
    ids ([py_int], [py_str]) are taken without it.

    The backing file is modelled by what [json.load] would make of it:
    absent, not parseable, or a parsed document.  [json.dump] followed by
    [json.load] is the identity on the documents the program writes (text
    keys, scalar values), so writing stores the document itself.

    Methods are functions in a small state-and-exception monad.  A raised
    exception keeps the state reached so far, as in Python, where the
    mutations made before the raise stay visible. *)

From Stdlib Require Import ZArith List String Ascii Bool Lia.
From Stdlib Require Import Permutation Sorted DecimalString DecimalZ.
Import ListNotations.

Local Open Scope string_scope.
Local Open Scope Z_scope.
Local Open Scope list_scope.

(* ===================================================================== *)
(** ** Python values and the builtins the program calls                   *)
(* ===================================================================== *)

Inductive pyval : Type :=
| PNone
| PBool (b : bool)
| PInt (n : Z)
| PStr (s : string).

Inductive exn : Type :=
| KeyError | ValueError | TypeError | AttributeError | JSONDecodeError
| FileNotFoundError.

(** A pure computation that may raise. *)
Inductive result (A : Type) : Type :=
| Ok (a : A)
| Err (e : exn).
Arguments Ok {A} a.
Arguments Err {A} e.

(** The decimal text of an integer: digits, a leading minus sign when
    negative.  This is [str(n)] wherever [str(n)] returns; see
    [str_builtin] below for the integers on which CPython refuses. *)
Definition str_of_int (n : Z) : string := NilZero.string_of_int (Z.to_int n).

(** [str(v)]. *)
Definition py_str (v : pyval) : string :=
  match v with
  | PNone => "None"
  | PBool true => "True"
  | PBool false => "False"
  | PInt n => str_of_int n
  | PStr s => s
  end.

(** CPython (3.11 and later) converts between integers and decimal text
    only up to 4300 digits: [str(n)] raises ValueError when [n] has more.
    [str_of_int] and [py_str] are the conversion without the limit;
    [str_builtin] is the call with it. *)
Definition max_str_digits : Z := 4300.

Definition within_str_limit (n : Z) : bool := Z.abs n <? 10 ^ max_str_digits.

Definition str_builtin (v : pyval) : result string :=
  match v with
  | PInt n => if within_str_limit n then Ok (str_of_int n) else Err ValueError
  | _ => Ok (py_str v)
  end.

(** Truth value of a value, as [x or y] and [if x] test it. *)
Definition truthy (v : pyval) : bool :=
  match v with
  | PNone => false
  | PBool b => b
  | PInt n => negb (n =? 0)
  | PStr s => negb (String.eqb s "")
  end.

(** Characters that [int()] skips around the number: tab, line feed,
    vertical tab, form feed, carriage return and the space, and of the
    code points above 127 the next-line character 0x85 and the no-break
    space 0xa0.  The separators 0x1c-0x1f are not skipped. *)
Definition is_space (c : ascii) : bool :=
  let n := nat_of_ascii c in
  (Nat.leb 9 n && Nat.leb n 13) || Nat.eqb n 32
  || Nat.eqb n 133 || Nat.eqb n 160.

Fixpoint lstrip (s : string) : string :=
  match s with
  | String c r => if is_space c then lstrip r else s
  | EmptyString => EmptyString
  end.

Fixpoint rstrip (s : string) : string :=
  match s with
  | String c r =>
      match rstrip r with
      | EmptyString => if is_space c then EmptyString else String c EmptyString
      | r' => String c r'
      end
  | EmptyString => EmptyString
  end.

Definition strip (s : string) : string := rstrip (lstrip s).

Definition digit_value (c : ascii) : option Z :=
  let n := nat_of_ascii c in
  if Nat.leb 48 n && Nat.leb n 57 then Some (Z.of_nat (n - 48)) else None.

(** The digits of a decimal literal; single underscores may separate
    digits.  [after_digit] tells whether the previous character was a
    digit. *)
Fixpoint digits_acc (acc : Z) (after_digit : bool) (s : string) : option Z :=
  match s with
  | EmptyString => if after_digit then Some acc else None
  | String c r =>
      if Ascii.eqb c "_"
      then if after_digit then digits_acc acc false r else None
      else match digit_value c with
           | Some d => digits_acc (10 * acc + d) true r
           | None => None
           end
  end.

(** [int(s)] on text, base ten, without the limit on the number of
    digits; [None] stands for ValueError.  The digits are the ten ASCII
    digits: the code points up to 255 hold no other decimal digit. *)
Definition py_int (s : string) : option Z :=
  match strip s with
  | String c r =>
      if Ascii.eqb c "-" then option_map Z.opp (digits_acc 0 false r)
      else if Ascii.eqb c "+" then digits_acc 0 false r
      else digits_acc 0 false (String c r)
  | EmptyString => None
  end.

(** The limit of 4300 digits applies to [int()] as well: text with more
    digits, leading zeros counted, raises ValueError whatever else it
    holds.  [int_builtin] is [int(s)] with the limit. *)
Fixpoint digit_count (s : string) : nat :=
  match s with
  | EmptyString => O
  | String c r =>
      match digit_value c with
      | Some _ => S (digit_count r)
      | None => digit_count r
      end
  end.

Definition within_int_limit (s : string) : bool :=
  Nat.leb (digit_count s) 4300.

Definition int_builtin (s : string) : option Z :=
  if within_int_limit s then py_int s else None.

(** [u < v]; None and mixed text/number comparisons raise TypeError,
    booleans compare as the integers 0 and 1. *)
Definition py_lt (u v : pyval) : result bool :=
  match u, v with
  | PStr a, PStr b => Ok (String.ltb a b)
  | PInt a, PInt b => Ok (a <? b)
  | PInt a, PBool b => Ok (a <? Z.b2z b)
  | PBool a, PInt b => Ok (Z.b2z a <? b)
  | PBool a, PBool b => Ok (Z.b2z a <? Z.b2z b)
  | _, _ => Err TypeError
  end.

(** [u == v]. *)
Definition py_eq (u v : pyval) : bool :=
  match u, v with
  | PNone, PNone => true
  | PStr a, PStr b => String.eqb a b
  | PInt a, PInt b => a =? b
  | PInt a, PBool b => a =? Z.b2z b
  | PBool a, PInt b => Z.b2z a =? b
  | PBool a, PBool b => Bool.eqb a b
  | _, _ => false
  end.

(** [type(v)], among the types of the values covered. *)
Inductive pytype : Type := NoneType | bool_type | int_type | str_type.

Definition type_of (v : pyval) : pytype :=
  match v with
  | PNone => NoneType
  | PBool _ => bool_type
  | PInt _ => int_type
  | PStr _ => str_type
  end.

(** The number a digit sequence denotes, continuing from [acc]. *)
Fixpoint uint_val (acc : Z) (d : Decimal.uint) : Z :=
  match d with
  | Decimal.Nil => acc
  | Decimal.D0 l => uint_val (10 * acc + 0) l
  | Decimal.D1 l => uint_val (10 * acc + 1) l
  | Decimal.D2 l => uint_val (10 * acc + 2) l
  | Decimal.D3 l => uint_val (10 * acc + 3) l
  | Decimal.D4 l => uint_val (10 * acc + 4) l
  | Decimal.D5 l => uint_val (10 * acc + 5) l
  | Decimal.D6 l => uint_val (10 * acc + 6) l
  | Decimal.D7 l => uint_val (10 * acc + 7) l
  | Decimal.D8 l => uint_val (10 * acc + 8) l
  | Decimal.D9 l => uint_val (10 * acc + 9) l
  end.

Fixpoint no_space (s : string) : bool :=
  match s with
  | EmptyString => true
  | String c r => negb (is_space c) && no_space r
  end.

(* ===================================================================== *)
(** ** Python dictionaries with text keys                                 *)
(* ===================================================================== *)

(** A [dict] keeps insertion order: assigning to a key already present
    replaces the value in place, assigning to a new key appends. *)
Definition dict (V : Type) : Type := list (string * V).

Fixpoint dict_get {V} (k : string) (d : dict V) : option V :=
  match d with
  | [] => None
  | (k', v) :: r => if String.eqb k k' then Some v else dict_get k r
  end.

Fixpoint dict_set {V} (k : string) (v : V) (d : dict V) : dict V :=
  match d with
  | [] => [(k, v)]
  | (k', v') :: r =>
      if String.eqb k k' then (k', v) :: r else (k', v') :: dict_set k v r
  end.

Fixpoint dict_del {V} (k : string) (d : dict V) : dict V :=
  match d with
  | [] => []
  | (k', v') :: r => if String.eqb k k' then r else (k', v') :: dict_del k r
  end.

Definition dict_mem {V} (k : string) (d : dict V) : bool :=
  match dict_get k d with Some _ => true | None => false end.

Definition keys {V} (d : dict V) : list string := map fst d.
Definition values {V} (d : dict V) : list V := map snd d.

(* ===================================================================== *)
(** ** The state-and-exception monad                                      *)
(* ===================================================================== *)

Inductive Outcome (S A : Type) : Type :=
| Return (a : A) (s : S)
| Raise (e : exn) (s : S).
Arguments Return {S A} a s.
Arguments Raise {S A} e s.

Definition M (S A : Type) : Type := S -> Outcome S A.

Definition ret {S A} (a : A) : M S A := fun s => Return a s.

Definition raise {S A} (e : exn) : M S A := fun s => Raise e s.

Definition bind {S A B} (c : M S A) (k : A -> M S B) : M S B :=
  fun s => match c s with
           | Return a s' => k a s'
           | Raise e s' => Raise e s'
           end.

Definition get_state {S} : M S S := fun s => Return s s.

Definition modify {S} (f : S -> S) : M S unit := fun s => Return tt (f s).

Definition lift {S A} (r : result A) : M S A :=
  match r with Ok a => ret a | Err e => raise e end.

Definition state_of {S A} (o : Outcome S A) : S :=
  match o with Return _ s => s | Raise _ s => s end.

Declare Scope py_scope.
Delimit Scope py_scope with py.
Notation "x <- c ;; k" := (bind c (fun x => k))
  (at level 61, c at next level, right associativity) : py_scope.
Notation "c ;; k" := (bind c (fun _ => k))
  (at level 61, right associativity) : py_scope.
Local Open Scope py_scope.

(** [for x in l: body(x)]. *)
Fixpoint for_each {S A} (l : list A) (body : A -> M S unit) : M S unit :=
  match l with
  | [] => ret tt
  | x :: r => body x ;; for_each r body
  end.

(** A dict comprehension [{key(x): value(x) for x in l}]; [item] computes
    the pair for one element. *)
Fixpoint dict_comprehension {A V} (l : list A) (item : A -> result (string * V))
    (acc : dict V) : result (dict V) :=
  match l with
  | [] => Ok acc
  | x :: r =>
      match item x with
      | Ok (k, v) => dict_comprehension r item (dict_set k v acc)
      | Err e => Err e
      end
  end.

(* ===================================================================== *)
(** ** TaskStatus, the clock and the backing file                         *)
(* ===================================================================== *)

(** [class TaskStatus(Enum)], declared alike in both files. *)
Inductive TaskStatus : Type := TODO | IN_PROGRESS | DONE.

(** [member.value]. *)
Definition value (m : TaskStatus) : string :=
  match m with
  | TODO => "todo"
  | IN_PROGRESS => "in-progress"
  | DONE => "done"
  end.

Definition TaskStatus_eqb (a b : TaskStatus) : bool :=
  match a, b with
  | TODO, TODO | IN_PROGRESS, IN_PROGRESS | DONE, DONE => true
  | _, _ => false
  end.

(** [TaskStatus(s)] for text [s]: lookup by value, ValueError when no
    member has that value. *)
Definition TaskStatus_of_value (s : string) : result TaskStatus :=
  if String.eqb s "todo" then Ok TODO
  else if String.eqb s "in-progress" then Ok IN_PROGRESS
  else if String.eqb s "done" then Ok DONE
  else Err ValueError.

(** What a [status] attribute or argument can hold: a member of the
    enumeration, or a plain value. *)
Inductive status_val : Type :=
| Member (m : TaskStatus)
| Plain (v : pyval).

(** [a == b] on such values.  A member equals only itself: the
    enumeration does not mix in [str]. *)
Definition status_eq (a b : status_val) : bool :=
  match a, b with
  | Member x, Member y => TaskStatus_eqb x y
  | Plain u, Plain v => py_eq u v
  | _, _ => false
  end.

(** A reading of [datetime.now()]. *)
Record datetime : Type := mkDatetime {
  year : Z; month : Z; day : Z;
  hour : Z; minute : Z; second : Z; microsecond : Z
}.

Definition digit (n : Z) : ascii := ascii_of_N (Z.to_N (48 + n mod 10)).

Definition pad2 (n : Z) : string :=
  String (digit (n / 10)) (String (digit n) "").

Definition pad4 (n : Z) : string :=
  String (digit (n / 1000)) (String (digit (n / 100)) (pad2 n)).

Definition pad6 (n : Z) : string :=
  String (digit (n / 100000)) (String (digit (n / 10000)) (pad4 n)).

(** [d.isoformat()] of a naive datetime: the fraction is printed only
    when the microsecond is not zero. *)
Definition isoformat (d : datetime) : string :=
  pad4 (year d) ++ "-" ++ pad2 (month d) ++ "-" ++ pad2 (day d) ++ "T"
  ++ pad2 (hour d) ++ ":" ++ pad2 (minute d) ++ ":" ++ pad2 (second d)
  ++ (if microsecond d =? 0 then "" else "." ++ pad6 (microsecond d)).

Definition is_digit (c : ascii) : bool :=
  let n := nat_of_ascii c in Nat.leb 48 n && Nat.leb n 57.

(** [s] has the shape of [template], where the letter d in the template
    stands for any digit and every other character for itself. *)
Fixpoint matches (template s : string) : bool :=
  match template, s with
  | EmptyString, EmptyString => true
  | String p pr, String c cr =>
      (if Ascii.eqb p "d" then is_digit c else Ascii.eqb p c) && matches pr cr
  | _, _ => false
  end.

(** The ISO-8601 shapes a naive datetime prints in. *)
Definition is_iso8601 (s : string) : bool :=
  matches "dddd-dd-ddTdd:dd:dd" s || matches "dddd-dd-ddTdd:dd:dd.dddddd" s.

Definition is_text (v : pyval) : bool :=
  match v with PStr _ => true | _ => false end.

Definition is_iso_text (v : pyval) : bool :=
  match v with PStr s => is_iso8601 s | _ => false end.

(** A JSON object as [json.load] returns it and [json.dump] takes it; a
    parsed object has each name once. *)
Definition jrecord : Type := dict pyval.

(** One value of the top-level mapping. *)
Inductive jentry : Type :=
| JRecord (fields : jrecord)
| JAtom (v : pyval).

(** A parsed document. *)
Inductive jdoc : Type :=
| JMapping (items : dict jentry)
| JNotMapping.

(** The backing file: absent, present with zero bytes (as just after
    [open(..., 'w')]), present with other text that is not JSON, or
    present with a JSON document. *)
Inductive file_state : Type :=
| Absent
| Blank
| Malformed
| Json (d : jdoc).

(** [task_data[key]] on a value of the mapping. *)
Definition subscript (e : jentry) (key : string) : result pyval :=
  match e with
  | JRecord fields =>
      match dict_get key fields with
      | Some v => Ok v
      | None => Err KeyError
      end
  | JAtom _ => Err TypeError
  end.

(** [sorted(l, key=...)]: a stable sort that compares the keys with [<]
    only.  The result of a stable sort is determined by the order on the
    keys, so insertion from the right stands for the builtin; a comparison
    that raises makes the call raise. *)
Fixpoint insert_by {A} (key : A -> pyval) (x : A) (l : list A)
    : result (list A) :=
  match l with
  | [] => Ok [x]
  | y :: r =>
      match py_lt (key y) (key x) with
      | Ok true =>
          match insert_by key x r with
          | Ok r' => Ok (y :: r')
          | Err e => Err e
          end
      | Ok false => Ok (x :: y :: r)
      | Err e => Err e
      end
  end.

Fixpoint sorted {A} (key : A -> pyval) (l : list A) : result (list A) :=
  match l with
  | [] => Ok []
  | x :: r =>
      match sorted key r with
      | Ok r' => insert_by key x r'
      | Err e => Err e
      end
  end.

(** [int(k) for k in ks], stopping at the first ValueError. *)
Fixpoint ints_of (ks : list string) : result (list Z) :=
  match ks with
  | [] => Ok []
  | k :: r =>
      match py_int k with
      | Some n =>
          match ints_of r with
          | Ok ns => Ok (n :: ns)
          | Err e => Err e
          end
      | None => Err ValueError
      end
  end.

(** [max(...)] of a sequence known not to be empty. *)
Definition py_max (n : Z) (ns : list Z) : Z := fold_left Z.max ns n.

(** Decidable checks used in the statements. *)
Fixpoint distinct (l : list string) : bool :=
  match l with
  | [] => true
  | k :: r => negb (existsb (String.eqb k) r) && distinct r
  end.

Definition is_int (v : pyval) : bool :=
  match v with PInt _ => true | _ => false end.

Definition is_member (s : status_val) : bool :=
  match s with Member _ => true | Plain _ => false end.

(** Vocabulary for lists sorted on an integer key. *)
Definition zkey {A} (key : A -> pyval) (x : A) : Z :=
  match key x with PInt n => n | _ => 0 end.

Definition int_keys {A} (key : A -> pyval) (l : list A) : Prop :=
  Forall (fun x => is_int (key x) = true) l.

Definition key_le {A} (key : A -> pyval) (a b : A) : Prop :=
  zkey key a <= zkey key b.

Definition key_lt {A} (key : A -> pyval) (a b : A) : Prop :=
  zkey key a < zkey key b.

(** [s.upper()] on ASCII text. *)
Definition upper_char (c : ascii) : ascii :=
  let n := nat_of_ascii c in
  if Nat.leb 97 n && Nat.leb n 122 then ascii_of_nat (n - 32) else c.

Fixpoint upper (s : string) : string :=
  match s with
  | EmptyString => EmptyString
  | String c r => String (upper_char c) (upper r)
  end.

(** [s * n]. *)
Fixpoint times (s : string) (n : nat) : string :=
  match n with
  | O => EmptyString
  | S m => s ++ times s m
  end.

(** The one-character text of a line feed. *)
Definition newline : string := String (ascii_of_nat 10) EmptyString.

(** [try: body except (...): handler], where [caught] tells which
    exceptions the clause names; what the body did before raising stays. *)
Definition try_except {S A} (body : M S A) (caught : exn -> bool)
    (handler : M S A) : M S A :=
  fun s => match body s with
           | Return a s' => Return a s'
           | Raise e s' => if caught e then handler s' else Raise e s'
           end.

(* ===================================================================== *)
(** ** testfile.py                                                        *)
(* ===================================================================== *)

Module testfile.

(** [class Task]. *)
Record Task : Type := mkTask {
  id : pyval;
  description : pyval;
  status : status_val;
  created_at : pyval
}.

(** A [TaskTracker] object together with what it touches outside itself:
    the file named [self.filename] and the clock.  [clock n] is the [n]-th
    reading of [datetime.now()], [ticks] counts the readings made. *)
Record State : Type := mkState {
  tasks : dict Task;
  disk : file_state;
  clock : nat -> datetime;
  ticks : nat
}.

Definition set_tasks (f : dict Task -> dict Task) (st : State) : State :=
  mkState (f (tasks st)) (disk st) (clock st) (ticks st).

Definition set_disk (d : file_state) (st : State) : State :=
  mkState (tasks st) d (clock st) (ticks st).

(** [datetime.now().isoformat()]. *)
Definition now : M State pyval :=
  fun st => Return (PStr (isoformat (clock st (ticks st))))
                   (mkState (tasks st) (disk st) (clock st) (S (ticks st))).

(** [TaskStatus(status) if isinstance(status, str) else status]. *)
Definition coerce_status (status : status_val) : result status_val :=
  match status with
  | Plain (PStr s) =>
      match TaskStatus_of_value s with
      | Ok m => Ok (Member m)
      | Err e => Err e
      end
  | _ => Ok status
  end.

(** [Task.__init__]. *)
Definition Task__init__ (task_id description : pyval) (status : status_val)
    (created_at : pyval) : M State Task :=
  st <- lift (coerce_status status) ;;
  c <- (if truthy created_at then ret created_at else now) ;;
  ret (mkTask task_id description st c).

Definition Task_update_description (t : Task) (new_description : pyval) : Task :=
  mkTask (id t) new_description (status t) (created_at t).

Definition Task_mark_in_progress (t : Task) : Task :=
  mkTask (id t) (description t) (Member IN_PROGRESS) (created_at t).

Definition Task_mark_done (t : Task) : Task :=
  mkTask (id t) (description t) (Member DONE) (created_at t).

(** [Task.to_dict]; [self.status.value] raises AttributeError when the
    status is not a member of the enumeration. *)
Definition to_dict (t : Task) : result jrecord :=
  match status t with
  | Member m =>
      Ok [("id", id t);
          ("description", description t);
          ("status", PStr (value m));
          ("created_at", created_at t)]
  | Plain _ => Err AttributeError
  end.

(** The body of the loop of [load_tasks]. *)
Definition load_entry (task_data : jentry) : M State unit :=
  i <- lift (subscript task_data "id") ;;
  d <- lift (subscript task_data "description") ;;
  s <- lift (subscript task_data "status") ;;
  c <- lift (subscript task_data "created_at") ;;
  task <- Task__init__ i d (Plain s) c ;;
  modify (set_tasks (dict_set (py_str (id task)) task)).

(** [TaskTracker.load_tasks]. *)
Definition load_tasks : M State unit :=
  st <- get_state ;;
  match disk st with
  | Absent => ret tt
  | Blank | Malformed => raise JSONDecodeError
  | Json JNotMapping => raise AttributeError
  | Json (JMapping items) =>
      for_each items (fun item => load_entry (snd item))
  end.

(** [{str(task_id): task.to_dict() for task_id, task in self.tasks.items()}]. *)
Definition dump_data (d : dict Task) : result (dict jrecord) :=
  dict_comprehension d
    (fun item =>
       match to_dict (snd item) with
       | Ok r => Ok (py_str (PStr (fst item)), r)
       | Err e => Err e
       end) [].

(** The document [json.dump(data, f, indent=2)] leaves in the file. *)
Definition json_document (data : dict jrecord) : file_state :=
  Json (JMapping (map (fun item => (fst item, JRecord (snd item))) data)).

(** [TaskTracker.save_tasks]: the mapping is built first, then the file is
    opened for writing (which empties it) and the document written. *)
Definition save_tasks : M State unit :=
  st <- get_state ;;
  data <- lift (dump_data (tasks st)) ;;
  modify (set_disk Blank) ;;
  modify (set_disk (json_document data)).

(** [TaskTracker.get_next_id]. *)
Definition get_next_id : M State Z :=
  st <- get_state ;;
  match tasks st with
  | [] => ret 1
  | _ =>
      ns <- lift (ints_of (keys (tasks st))) ;;
      match ns with
      | n :: r => ret (py_max n r + 1)
      | [] => raise ValueError
      end
  end.

(** [TaskTracker.add_task]. *)
Definition add_task (description : pyval) : M State Task :=
  task_id <- get_next_id ;;
  task <- Task__init__ (PInt task_id) description (Member TODO) PNone ;;
  modify (set_tasks (dict_set (py_str (PInt task_id)) task)) ;;
  save_tasks ;;
  ret task.

(** [TaskTracker.get_task]. *)
Definition get_task (task_id : pyval) : M State (option Task) :=
  st <- get_state ;;
  ret (dict_get (py_str task_id) (tasks st)).

(** A method call on the task object held under [str(task_id)]: the
    object is changed in place, so the dictionary shows the change. *)
Definition mutate (task_id : pyval) (f : Task -> Task) (t : Task) : M State unit :=
  modify (set_tasks (dict_set (py_str task_id) (f t))).

(** [TaskTracker.update_task]; a Task object is always true. *)
Definition update_task (task_id new_description : pyval) : M State bool :=
  task <- get_task task_id ;;
  match task with
  | Some t =>
      mutate task_id (fun t => Task_update_description t new_description) t ;;
      save_tasks ;;
      ret true
  | None => ret false
  end.

(** [TaskTracker.delete_task]. *)
Definition delete_task (task_id : pyval) : M State bool :=
  st <- get_state ;;
  if dict_mem (py_str task_id) (tasks st)
  then modify (set_tasks (dict_del (py_str task_id))) ;;
       save_tasks ;;
       ret true
  else ret false.

(** [TaskTracker.mark_in_progress]. *)
Definition mark_in_progress (task_id : pyval) : M State bool :=
  task <- get_task task_id ;;
  match task with
  | Some t => mutate task_id Task_mark_in_progress t ;; save_tasks ;; ret true
  | None => ret false
  end.

(** [TaskTracker.mark_done]. *)
Definition mark_done (task_id : pyval) : M State bool :=
  task <- get_task task_id ;;
  match task with
  | Some t => mutate task_id Task_mark_done t ;; save_tasks ;; ret true
  | None => ret false
  end.

(** [TaskTracker.get_all_tasks]. *)
Definition get_all_tasks : M State (list Task) :=
  st <- get_state ;;
  lift (sorted id (values (tasks st))).

(** [TaskTracker.get_tasks_by_status]. *)
Definition get_tasks_by_status (status_arg : status_val) : M State (list Task) :=
  status_enum <- lift (coerce_status status_arg) ;;
  st <- get_state ;;
  lift (sorted id
          (filter (fun t => status_eq (status t) status_enum)
                  (values (tasks st)))).

(** [TaskTracker.__init__]: an empty dictionary, then [load_tasks]. *)
Definition TaskTracker__init__ : M State unit :=
  modify (set_tasks (fun _ => [])) ;;
  load_tasks.

(** *** Vocabulary of the statements about testfile.py *)

(** The store operations that change the object, as data. *)
Inductive op : Type :=
| OpLoad
| OpAdd (description : pyval)
| OpUpdate (task_id new_description : pyval)
| OpDelete (task_id : pyval)
| OpMarkInProgress (task_id : pyval)
| OpMarkDone (task_id : pyval).

(** The state a call leaves behind, whether it returns or raises. *)
Definition step (o : op) (st : State) : State :=
  match o with
  | OpLoad => state_of (load_tasks st)
  | OpAdd d => state_of (add_task d st)
  | OpUpdate i d => state_of (update_task i d st)
  | OpDelete i => state_of (delete_task i st)
  | OpMarkInProgress i => state_of (mark_in_progress i st)
  | OpMarkDone i => state_of (mark_done i st)
  end.

(** States of a tracker object: it starts with an empty dictionary (the
    first line of [__init__]), then any calls are made, and between calls
    the backing file may be changed from outside. *)
Inductive reachable : State -> Prop :=
| reach_new : forall d c n, reachable (mkState [] d c n)
| reach_step : forall st o, reachable st -> reachable (step o st)
| reach_disk : forall st d, reachable st -> reachable (set_disk d st).

(** Every task is filed under the text form of its own id, and no key
    occurs twice. *)
Definition keyed (d : dict Task) : bool :=
  distinct (keys d)
  && forallb (fun kt => String.eqb (fst kt) (py_str (id (snd kt)))) d.

(** Every creation time is a value that counts as true. *)
Definition stamped (d : dict Task) : bool :=
  forallb (fun kt => truthy (created_at (snd kt))) d.

(** Every status is a member of the enumeration. *)
Definition enumerated (d : dict Task) : bool :=
  forallb (fun kt => is_member (status (snd kt))) d.

(** Every id is an integer. *)
Definition numbered (d : dict Task) : bool :=
  forallb (fun kt => is_int (id (snd kt))) d.

(** The store holds tasks of the data model: integer ids, a status of the
    enumeration, each task under its own key. *)
Definition well_formed (d : dict Task) : bool :=
  keyed d && stamped d && enumerated d && numbered d.

(** A task as the data model describes it: an integer id, a text
    description, a status of the enumeration, an ISO-8601 creation time. *)
Definition of_data_model (t : Task) : bool :=
  is_int (id t) && is_text (description t)
  && is_member (status t) && is_iso_text (created_at t).

(** The record [to_dict] gives for a task whose status is a member. *)
Definition record_of (t : Task) : jrecord :=
  match to_dict t with Ok r => r | Err _ => [] end.

(** Order of two tasks by integer id. *)
Definition id_lt (a b : Task) : Prop :=
  match id a, id b with
  | PInt m, PInt n => m < n
  | _, _ => False
  end.

(** The file holds the document [save_tasks] builds from the tasks in
    memory; [file_holds] below says what that document is. *)
Definition persisted (st : State) : Prop :=
  exists data, dump_data (tasks st) = Ok data /\ disk st = json_document data.

(** The store holds a task whose id reads as [task_id]; the store finds
    tasks by the text form of the id. *)
Definition held (st : State) (task_id : pyval) : Prop :=
  exists k t, In (k, t) (tasks st) /\ py_str (id t) = py_str task_id.

(** What the backing file is to hold for a collection, said without the
    serializer: a mapping with one item per task, in the order of the
    dictionary and under the same key, each an object of four fields
    holding the id of the task, its description, the text of its status,
    which is a member of the enumeration, and its creation time. *)
Definition file_holds (f : file_state) (d : dict Task) : Prop :=
  exists items,
    f = Json (JMapping items)
    /\ Forall2
         (fun (kt : string * Task) (item : string * jentry) =>
            fst item = fst kt
            /\ exists m,
                 status (snd kt) = Member m
                 /\ snd item
                    = JRecord [("id", id (snd kt));
                               ("description", description (snd kt));
                               ("status", PStr (value m));
                               ("created_at", created_at (snd kt))])
         d items.


(** A method that takes an id evaluates [str(task_id)] before it does
    anything else: [get_task] and [delete_task] in their first
    expression, the other three through [get_task].  This is the method
    with the limit of [str] on integers taken into account. *)
Definition with_str_limit {A} (task_id : pyval) (call : M State A) : M State A :=
  match str_builtin task_id with
  | Ok _ => call
  | Err e => raise e
  end.



(** *** [Task.__str__] and [class CLI] *)

(** [Task.__str__]: the f-string formats the id and the description with
    [str]; [self.status.value] raises when the status is not a member. *)
Definition Task__str__ (t : Task) : result string :=
  match status t with
  | Member m =>
      Ok ("ID: " ++ py_str (id t) ++ " | [" ++ upper (value m) ++ "] "
          ++ py_str (description t))%string
  | Plain _ => Err AttributeError
  end.

(** A [CLI] object with what it prints: [self.tracker] together with the
    file and the clock, and the texts passed to [print], oldest first. *)
Record Console : Type := mkConsole {
  tracker : State;
  stdout : list string
}.

(** A method call on [self.tracker]. *)
Definition on_tracker {A} (m : M State A) : M Console A :=
  fun c => match m (tracker c) with
           | Return a s => Return a (mkConsole s (stdout c))
           | Raise e s => Raise e (mkConsole s (stdout c))
           end.

(** [print(line)]. *)
Definition print (line : string) : M Console unit :=
  modify (fun c => mkConsole (tracker c) (stdout c ++ [line])).

(** [CLI.add_command]. *)
Definition add_command (description : pyval) : M Console unit :=
  task <- on_tracker (add_task description) ;;
  print ("Task added successfully (ID: " ++ py_str (id task) ++ ")")%string.

(** [CLI.update_command]. *)
Definition update_command (task_id description : pyval) : M Console unit :=
  found <- on_tracker (update_task task_id description) ;;
  if (found : bool)
  then print ("Task " ++ py_str task_id ++ " updated successfully")%string
  else print ("Task " ++ py_str task_id ++ " not found")%string.

(** [CLI.delete_command]. *)
Definition delete_command (task_id : pyval) : M Console unit :=
  found <- on_tracker (delete_task task_id) ;;
  if (found : bool)
  then print ("Task " ++ py_str task_id ++ " deleted successfully")%string
  else print ("Task " ++ py_str task_id ++ " not found")%string.

(** [CLI.mark_in_progress_command]. *)
Definition mark_in_progress_command (task_id : pyval) : M Console unit :=
  found <- on_tracker (mark_in_progress task_id) ;;
  if (found : bool)
  then print ("Task " ++ py_str task_id ++ " marked as in progress")%string
  else print ("Task " ++ py_str task_id ++ " not found")%string.

(** [CLI.mark_done_command]. *)
Definition mark_done_command (task_id : pyval) : M Console unit :=
  found <- on_tracker (mark_done task_id) ;;
  if (found : bool)
  then print ("Task " ++ py_str task_id ++ " marked as done")%string
  else print ("Task " ++ py_str task_id ++ " not found")%string.

(** The line of sixty equals signs. *)
Definition rule : string := times "=" 60.

(** [print(task)] for each task of a listing. *)
Definition print_tasks (ts : list Task) : M Console unit :=
  for_each ts (fun task => line <- lift (Task__str__ task) ;; print line).

(** [CLI.list_command]; [status] is text or None. *)
Definition list_command (status_arg : pyval) : M Console unit :=
  print (newline ++ rule)%string ;;
  ts <- (if truthy status_arg
         then ts <- on_tracker (get_tasks_by_status (Plain status_arg)) ;;
              print ("Tasks (" ++ py_str status_arg ++ "):")%string ;;
              ret ts
         else ts <- on_tracker get_all_tasks ;;
              print "All Tasks:" ;;
              ret ts) ;;
  print rule ;;
  match ts with
  | [] => print "No tasks found"
  | _ => print_tasks ts
  end ;;
  print (rule ++ newline)%string.

(** The lines [show_help] prints. *)
Definition usage : list string :=
  ["Usage:";
   "  task-cli add <description>";
   "  task-cli update <id> <description>";
   "  task-cli delete <id>";
   "  task-cli mark-in-progress <id>";
   "  task-cli mark-done <id>";
   "  task-cli list [status]"].

(** [CLI.show_help]. *)
Definition show_help : M Console unit := for_each usage print.

(** [int(args[2])]. *)
Definition int_arg (s : string) : M Console pyval :=
  match int_builtin s with
  | Some n => ret (PInt n)
  | None => raise ValueError
  end.

(** The exceptions [except (ValueError, IndexError)] catches among those
    of the model: ValueError and its subclass JSONDecodeError. *)
Definition caught_by_run (e : exn) : bool :=
  match e with
  | ValueError | JSONDecodeError => true
  | _ => false
  end.

(** The body of the [try] block of [CLI.run]. *)
Definition dispatch (args : list string) : M Console unit :=
  let command := nth 1 args "" in
  if String.eqb command "add" && Nat.ltb 2 (List.length args)
  then add_command (PStr (String.concat " " (skipn 2 args)))
  else if String.eqb command "update" && Nat.ltb 3 (List.length args)
  then i <- int_arg (nth 2 args "") ;;
       update_command i (PStr (String.concat " " (skipn 3 args)))
  else if String.eqb command "delete" && Nat.ltb 2 (List.length args)
  then i <- int_arg (nth 2 args "") ;; delete_command i
  else if String.eqb command "mark-in-progress" && Nat.ltb 2 (List.length args)
  then i <- int_arg (nth 2 args "") ;; mark_in_progress_command i
  else if String.eqb command "mark-done" && Nat.ltb 2 (List.length args)
  then i <- int_arg (nth 2 args "") ;; mark_done_command i
  else if String.eqb command "list"
  then list_command (if Nat.ltb 2 (List.length args)
                     then PStr (nth 2 args "") else PNone)
  else print "Invalid command" ;; show_help.

(** [CLI.run]; [args] is [sys.argv]. *)
Definition run (args : list string) : M Console unit :=
  if Nat.ltb (List.length args) 2 then show_help
  else try_except (dispatch args) caught_by_run
                  (print "Invalid arguments" ;; show_help).

(** [main]: [cli = CLI()], which builds the tracker, then [cli.run]. *)
Definition main (argv : list string) : M Console unit :=
  on_tracker TaskTracker__init__ ;;
  run argv.

(** *** Vocabulary of the further statements about testfile.py *)

Definition is_status_name (s : string) : bool :=
  String.eqb s "todo" || String.eqb s "in-progress" || String.eqb s "done".




(** The state after a run of calls, each returning or raising. *)
Definition steps (ops : list op) (st : State) : State :=
  fold_left (fun s o => step o s) ops st.

Definition is_load (o : op) : bool :=
  match o with OpLoad => true | _ => false end.

(** The line [print(task)] writes for a task whose status is a member. *)
Definition line_of (t : Task) : string :=
  match Task__str__ t with Ok s => s | Err _ => EmptyString end.

(** The four commands that take an id: the call each makes on the
    tracker, and the end of the line each prints on success. *)
Definition is_id_command (command : string) : bool :=
  String.eqb command "update" || String.eqb command "delete"
  || String.eqb command "mark-in-progress" || String.eqb command "mark-done".

Definition tracker_call (command : string) (task_id : pyval)
    (words : list string) : M State bool :=
  if String.eqb command "update"
  then update_task task_id (PStr (String.concat " " words))
  else if String.eqb command "delete" then delete_task task_id
  else if String.eqb command "mark-in-progress" then mark_in_progress task_id
  else mark_done task_id.

Definition success_text (command : string) : string :=
  if String.eqb command "update" then " updated successfully"
  else if String.eqb command "delete" then " deleted successfully"
  else if String.eqb command "mark-in-progress" then " marked as in progress"
  else " marked as done".

(** What was printed up to [c] is the start of what is printed at [c']. *)
Definition prints_more (c c' : Console) : Prop :=
  exists out, stdout c' = stdout c ++ out.

(** The lines [list_command] prints between the rules for a listing. *)
Definition listing (ts : list Task) : list string :=
  match ts with
  | [] => ["No tasks found"]
  | _ => map line_of ts
  end.

(** The frame [list_command] prints around a listing under a title. *)
Definition framed (title : string) (ts : list Task) : list string :=
  [(newline ++ rule)%string; title; rule] ++ listing ts
  ++ [(rule ++ newline)%string].

(** The file and the memory agree: the file holds the serialization of
    the tasks in memory, or there is no file and no task. *)
Definition synced (st : State) : Prop :=
  persisted st \/ (tasks st = [] /\ disk st = Absent).

(** The program run once per argument vector, one run after the other on
    the same file, clock and terminal; each run builds its own tracker. *)
Definition session (argvs : list (list string)) : M Console unit :=
  for_each argvs main.

(** An outcome that leaves a store of the data model and has only added
    to what was printed; if it is a raise, of ValueError. *)
Definition settles (c : Console) (o : Outcome Console unit) : Prop :=
  match o with
  | Return _ c' =>
      well_formed (tasks (tracker c')) = true /\ prints_more c c'
  | Raise e c' =>
      e = ValueError
      /\ well_formed (tasks (tracker c')) = true /\ prints_more c c'
  end.

End testfile.

(* ===================================================================== *)
(** ** TaskTracker.py                                                     *)
(* ===================================================================== *)

Module TaskTracker.

(** [class Task]; the status attribute always holds a member, because
    [__init__] passes every status through [TaskStatus(...)]. *)
Record Task : Type := mkTask {
  id : pyval;
  taskDesc : pyval;
  createdOn : pyval;
  status : TaskStatus
}.

Record State : Type := mkState {
  tasks : dict Task;
  disk : file_state;
  clock : nat -> datetime;
  ticks : nat
}.

Definition set_tasks (f : dict Task -> dict Task) (st : State) : State :=
  mkState (f (tasks st)) (disk st) (clock st) (ticks st).

Definition set_disk (d : file_state) (st : State) : State :=
  mkState (tasks st) d (clock st) (ticks st).

Definition now : M State pyval :=
  fun st => Return (PStr (isoformat (clock st (ticks st))))
                   (mkState (tasks st) (disk st) (clock st) (S (ticks st))).

(** [TaskStatus(status)]: a member is returned as it is, text is looked
    up by value, any other value is a ValueError. *)
Definition TaskStatus_call (status : status_val) : result TaskStatus :=
  match status with
  | Member m => Ok m
  | Plain (PStr s) => TaskStatus_of_value s
  | Plain _ => Err ValueError
  end.

(** [Task.__init__]. *)
Definition Task__init__ (task_id taskDesc : pyval) (status : status_val)
    (createdOn : pyval) : M State Task :=
  c <- (if truthy createdOn then ret createdOn else now) ;;
  m <- lift (TaskStatus_call status) ;;
  ret (mkTask task_id taskDesc c m).

Definition markTD (t : Task) : Task :=
  mkTask (id t) (taskDesc t) (createdOn t) TODO.

Definition markIP (t : Task) : Task :=
  mkTask (id t) (taskDesc t) (createdOn t) IN_PROGRESS.

Definition markD (t : Task) : Task :=
  mkTask (id t) (taskDesc t) (createdOn t) DONE.

Definition updateDesc (t : Task) (new_desc : pyval) : Task :=
  mkTask (id t) new_desc (createdOn t) (status t).

(** [Task.task_dict]. *)
Definition task_dict (t : Task) : jrecord :=
  [("id", id t);
   ("description", taskDesc t);
   ("status", PStr (value (status t)));
   ("created", createdOn t)].

(** [os.path.exist(self.filename)]: the module [os.path] has [exists] but
    no attribute [exist], so the attribute lookup raises. *)
Definition os_path_exist : M State bool := raise AttributeError.

(** The body of the loop of [load_tasks]. *)
Definition load_entry (task_data : jentry) : M State unit :=
  i <- lift (subscript task_data "id") ;;
  d <- lift (subscript task_data "description") ;;
  s <- lift (subscript task_data "status") ;;
  c <- lift (subscript task_data "created") ;;
  task <- Task__init__ i d (Plain s) c ;;
  modify (set_tasks (dict_set (py_str (id task)) task)).

(** [TaskTracker.load_tasks]. *)
Definition load_tasks : M State unit :=
  present <- os_path_exist ;;
  if (present : bool) then
    st <- get_state ;;
    match disk st with
    | Absent => raise FileNotFoundError
    | Blank | Malformed => raise JSONDecodeError
    | Json JNotMapping => raise AttributeError
    | Json (JMapping items) =>
        for_each items (fun item => load_entry (snd item))
    end
  else ret tt.

(** [{str(task_id): task.task_dict() for ...}]. *)
Definition dump_data (d : dict Task) : result (dict jrecord) :=
  dict_comprehension d
    (fun item => Ok (py_str (PStr (fst item)), task_dict (snd item))) [].

(** [json.dumps(data, f, indent=2)]: [dumps] takes the object as its only
    positional argument, so the call raises TypeError before anything is
    serialized; nothing is written to [f]. *)
Definition json_dumps_to_file (data : dict jrecord) : M State unit :=
  raise TypeError.

(** [TaskTracker.save_task]. *)
Definition save_task : M State unit :=
  st <- get_state ;;
  data <- lift (dump_data (tasks st)) ;;
  modify (set_disk Blank) ;;
  json_dumps_to_file data.

(** [TaskTracker.next_task_id]. *)
Definition next_task_id : M State Z :=
  st <- get_state ;;
  match tasks st with
  | [] => ret 1
  | _ =>
      ns <- lift (ints_of (keys (tasks st))) ;;
      match ns with
      | n :: r => ret (py_max n r + 1)
      | [] => raise ValueError
      end
  end.

(** [TaskTracker.__init__]. *)
Definition TaskTracker__init__ : M State unit :=
  modify (set_tasks (fun _ => [])) ;;
  load_tasks.

(** *** Vocabulary of the statements about TaskTracker.py *)

Definition of_data_model (t : Task) : bool :=
  is_int (id t) && is_text (taskDesc t) && is_iso_text (createdOn t).

(** A call of one of the three mark methods, as data. *)
Inductive mark : Type := ToTodo | ToInProgress | ToDone.

Definition apply_mark (t : Task) (m : mark) : Task :=
  match m with
  | ToTodo => markTD t
  | ToInProgress => markIP t
  | ToDone => markD t
  end.

Definition status_of_mark (m : mark) : TaskStatus :=
  match m with
  | ToTodo => TODO
  | ToInProgress => IN_PROGRESS
  | ToDone => DONE
  end.

End TaskTracker.


(* ===================================================================== *)
(** ** Sample states                                                      *)
(* ===================================================================== *)

Definition noon : datetime := mkDatetime 2025 12 1 12 0 0 0.

(** A tracker just built where no backing file exists. *)
Definition empty_store : testfile.State :=
  testfile.mkState [] Absent (fun _ => noon) 0.

Definition milk : testfile.Task :=
  testfile.mkTask (PInt 1) (PStr "buy milk") (Member TODO)
                  (PStr "2025-12-01T12:00:00").

Definition report : testfile.Task :=
  testfile.mkTask (PInt 2) (PStr "write report") (Member TODO)
                  (PStr "2025-12-01T12:00:00").

(** The tracker after [add("buy milk")] and [add("write report")]. *)
Definition two_tasks : testfile.State :=
  testfile.mkState
    [("1", milk); ("2", report)]
    (testfile.json_document
       [("1", [("id", PInt 1); ("description", PStr "buy milk");
               ("status", PStr "todo");
               ("created_at", PStr "2025-12-01T12:00:00")]);
        ("2", [("id", PInt 2); ("description", PStr "write report");
               ("status", PStr "todo");
               ("created_at", PStr "2025-12-01T12:00:00")])])
    (fun _ => noon) 2.

(** A file in which the record of task 1 carries a status the enumeration
    does not have. *)
Definition stale_file : file_state :=
  Json (JMapping
          [("1", JRecord [("id", PInt 1); ("description", PStr "buy milk");
                          ("status", PStr "finished");
                          ("created_at", PStr "2025-12-01T12:00:00")])]).

Definition stale_store : testfile.State :=
  testfile.mkState [] stale_file (fun _ => noon) 0.

(** A file of two records, the second with the number 5 as its status,
    and the tracker built on it: [Task.__init__] converts a status only
    when it is text. *)
Definition odd_status_file : file_state :=
  Json (JMapping
          [("1", JRecord [("id", PInt 1); ("description", PStr "buy milk");
                          ("status", PStr "todo");
                          ("created_at", PStr "2025-12-01T12:00:00")]);
           ("2", JRecord [("id", PInt 2); ("description", PStr "write report");
                          ("status", PInt 5);
                          ("created_at", PStr "2025-12-01T12:00:00")])]).

Definition odd_report : testfile.Task :=
  testfile.mkTask (PInt 2) (PStr "write report") (Plain (PInt 5))
                  (PStr "2025-12-01T12:00:00").

Definition odd_status_store : testfile.State :=
  testfile.mkState [("1", milk); ("2", odd_report)] odd_status_file
                   (fun _ => noon) 0.

(** A file whose ids are the texts 9 and 10, and the tracker built on
    it. *)
Definition text_task (i : string) : testfile.Task :=
  testfile.mkTask (PStr i) (PStr "x") (Member TODO)
                  (PStr "2025-12-01T12:00:00").

Definition text_ids_file : file_state :=
  Json (JMapping
          [("9", JRecord [("id", PStr "9"); ("description", PStr "x");
                          ("status", PStr "todo");
                          ("created_at", PStr "2025-12-01T12:00:00")]);
           ("10", JRecord [("id", PStr "10"); ("description", PStr "x");
                           ("status", PStr "todo");
                           ("created_at", PStr "2025-12-01T12:00:00")])]).

Definition text_ids_store : testfile.State :=
  testfile.mkState [("9", text_task "9"); ("10", text_task "10")]
                   text_ids_file (fun _ => noon) 0.

(** A file whose ids are the number 1 and the boolean true, and the
    tracker built on it. *)
Definition one_and_true_file : file_state :=
  Json (JMapping
          [("a", JRecord [("id", PInt 1); ("description", PStr "x");
                          ("status", PStr "todo");
                          ("created_at", PStr "2025-12-01T12:00:00")]);
           ("b", JRecord [("id", PBool true); ("description", PStr "y");
                          ("status", PStr "todo");
                          ("created_at", PStr "2025-12-01T12:00:00")])]).

Definition one_and_true_store : testfile.State :=
  testfile.mkState
    [("1", testfile.mkTask (PInt 1) (PStr "x") (Member TODO)
                           (PStr "2025-12-01T12:00:00"));
     ("True", testfile.mkTask (PBool true) (PStr "y") (Member TODO)
                              (PStr "2025-12-01T12:00:00"))]
    one_and_true_file (fun _ => noon) 0.

(** A file that lists tasks 3, 1 and 2 in this order, with mixed
    statuses, and the tracker built on it. *)
Definition shuffled_file : file_state :=
  Json (JMapping
          [("3", JRecord [("id", PInt 3); ("description", PStr "pay rent");
                          ("status", PStr "done");
                          ("created_at", PStr "2025-12-03T09:00:00")]);
           ("1", JRecord [("id", PInt 1); ("description", PStr "buy milk");
                          ("status", PStr "todo");
                          ("created_at", PStr "2025-12-01T12:00:00")]);
           ("2", JRecord [("id", PInt 2); ("description", PStr "write report");
                          ("status", PStr "done");
                          ("created_at", PStr "2025-12-02T08:30:00")])]).

Definition rent : testfile.Task :=
  testfile.mkTask (PInt 3) (PStr "pay rent") (Member DONE)
                  (PStr "2025-12-03T09:00:00").

Definition report_done : testfile.Task :=
  testfile.mkTask (PInt 2) (PStr "write report") (Member DONE)
                  (PStr "2025-12-02T08:30:00").

Definition shuffled : testfile.State :=
  testfile.mkState [("3", rent); ("1", milk); ("2", report_done)]
                   shuffled_file (fun _ => noon) 0.



(** The smallest positive integer of 4301 digits. *)
Definition beyond_limit : Z := 10 ^ 4300.

(** The module-level lines of TaskTracker.py: [task1 = Task(1, "Make
    Program")] followed by [task1.markD()]. *)
Definition task1 : TaskTracker.Task :=
  TaskTracker.markD
    (TaskTracker.mkTask (PInt 1) (PStr "Make Program")
                        (PStr "2025-12-01T12:00:00") TODO).

(** A tracker of TaskTracker.py holding that task, no file written yet. *)
Definition draft_store : TaskTracker.State :=
  TaskTracker.mkState [("1", task1)] Absent (fun _ => noon) 1.

(** A console on the store of two tasks, nothing printed yet. *)
Definition desk : testfile.Console := testfile.mkConsole two_tasks [].
(* ===================================================================== *)
(** ** Facts about the builtins                                           *)
(* ===================================================================== *)

Section Decimal.

Lemma digits_acc_uint (d : Decimal.uint) :
  forall acc b, d <> Decimal.Nil \/ b = true ->
    digits_acc acc b (NilEmpty.string_of_uint d) = Some (uint_val acc d).
Proof.
  induction d; intros acc b H; cbn [NilEmpty.string_of_uint digits_acc uint_val];
    try (match goal with
         | |- context [Ascii.eqb ?c "_"%char] =>
             change (Ascii.eqb c "_"%char) with false;
             let v := eval vm_compute in (digit_value c) in
             change (digit_value c) with v
         end; cbv iota beta; apply IHd; now right).
  destruct H as [H | ->]; [now elim H | reflexivity].
Qed.

Lemma of_uint_acc_val (d : Decimal.uint) :
  forall p, Z.pos (Pos.of_uint_acc d p) = uint_val (Z.pos p) d.
Proof.
  induction d; intro p; cbn [Pos.of_uint_acc uint_val];
    try reflexivity; rewrite IHd; f_equal; lia.
Qed.

Lemma of_uint_val (d : Decimal.uint) : Z.of_uint d = uint_val 0 d.
Proof.
  unfold Z.of_uint.
  induction d; cbn [Pos.of_uint uint_val]; try reflexivity;
    try (cbn [Z.of_N]; rewrite of_uint_acc_val; reflexivity).
  exact IHd.
Qed.

Lemma no_space_uint (d : Decimal.uint) : no_space (NilEmpty.string_of_uint d) = true.
Proof. induction d; cbn; auto. Qed.

Lemma rstrip_no_space (s : string) : no_space s = true -> rstrip s = s.
Proof.
  induction s as [|c r IH]; cbn; [reflexivity|].
  intro H. apply andb_true_iff in H as [Hc Hr].
  rewrite (IH Hr). destruct r; [|reflexivity].
  apply negb_true_iff in Hc. now rewrite Hc.
Qed.

Lemma strip_no_space (s : string) : no_space s = true -> strip s = s.
Proof.
  intro H. unfold strip.
  assert (lstrip s = s) as ->.
  { destruct s as [|c r]; [reflexivity|]. cbn in *.
    apply andb_true_iff in H as [Hc _]. apply negb_true_iff in Hc.
    now rewrite Hc. }
  now apply rstrip_no_space.
Qed.

Lemma py_int_nonneg (d : Decimal.uint) :
  d <> Decimal.Nil ->
  py_int (NilEmpty.string_of_uint d) = Some (uint_val 0 d).
Proof.
  intro Hd. unfold py_int.
  rewrite strip_no_space by apply no_space_uint.
  rewrite <- (digits_acc_uint d 0 false) by now left.
  destruct d; try (now elim Hd); reflexivity.
Qed.

Lemma py_int_neg (d : Decimal.uint) :
  d <> Decimal.Nil ->
  py_int (String "-" (NilEmpty.string_of_uint d)) = Some (- uint_val 0 d).
Proof.
  intro Hd. unfold py_int.
  rewrite strip_no_space by (cbn; apply no_space_uint).
  cbn. now rewrite digits_acc_uint by now left.
Qed.

(** [int(str(n)) == n] for every integer. *)
Lemma py_int_str_of_int (n : Z) : py_int (str_of_int n) = Some n.
Proof.
  unfold str_of_int.
  rewrite <- (DecimalZ.of_to n) at 2.
  destruct (Z.to_int n) as [d | d]; cbn [NilZero.string_of_int Z.of_int].
  - rewrite of_uint_val. destruct d; try (apply py_int_nonneg; discriminate).
    reflexivity.
  - rewrite of_uint_val. destruct d; try (apply py_int_neg; discriminate).
    reflexivity.
Qed.

Lemma str_of_int_inj (m n : Z) : str_of_int m = str_of_int n -> m = n.
Proof.
  intro H. apply (f_equal py_int) in H.
  rewrite !py_int_str_of_int in H. congruence.
Qed.

(** What [int()] skips and what it does not: blanks and line ends
    around the number, the no-break space 0xa0 among them; not the
    separator 0x1c; an underscore only between digits. *)
Example py_int_samples :
  py_int " 42 " = Some 42
  /\ py_int "-007" = Some (-7)
  /\ py_int "1_000" = Some 1000
  /\ py_int (String (ascii_of_nat 160) "2") = Some 2
  /\ py_int (String (ascii_of_nat 28) "2") = None
  /\ py_int (String (ascii_of_nat 31) "2") = None
  /\ py_int "_1" = None
  /\ py_int "one" = None
  /\ py_int "" = None.
Proof. repeat split. Qed.

End Decimal.

(* ===================================================================== *)
(** ** Facts about dictionaries                                           *)
(* ===================================================================== *)

Section DictFacts.

Context {V : Type}.
Implicit Types (d : dict V) (k : string) (v : V).

Lemma existsb_eqb_In k (l : list string) :
  existsb (String.eqb k) l = true <-> In k l.
Proof.
  rewrite existsb_exists. split.
  - intros [x [Hx He]]. apply String.eqb_eq in He. now subst.
  - intro H. exists k. split; [assumption | apply String.eqb_refl].
Qed.

Lemma distinct_NoDup (l : list string) : distinct l = true <-> NoDup l.
Proof.
  induction l as [|k r IH]; cbn.
  - split; [constructor | reflexivity].
  - rewrite andb_true_iff, negb_true_iff, IH. split.
    + intros [Hk Hr]. constructor; [|assumption].
      intro Hin. apply existsb_eqb_In in Hin. congruence.
    + intro H. inversion H as [|? ? Hk Hr]; subst. split; [|assumption].
      destruct (existsb (String.eqb k) r) eqn:E; [|reflexivity].
      apply existsb_eqb_In in E. contradiction.
Qed.

Lemma dict_get_In k v d : dict_get k d = Some v -> In (k, v) d.
Proof.
  induction d as [|[k' v'] r IH]; cbn; [discriminate|].
  destruct (String.eqb_spec k k') as [->|Hne].
  - intros [= ->]. now left.
  - intro H. right. auto.
Qed.

Lemma dict_get_None k d : dict_get k d = None <-> ~ In k (keys d).
Proof.
  induction d as [|[k' v'] r IH]; cbn.
  - split; auto.
  - destruct (String.eqb_spec k k') as [->|Hne].
    + split; [discriminate | intro H; elim H; now left].
    + rewrite IH. split; intro H.
      * intros [E|Hin]; [congruence | contradiction].
      * intro Hin. apply H. now right.
Qed.

Lemma In_keys k v d : In (k, v) d -> In k (keys d).
Proof. intro H. apply (in_map fst) in H. exact H. Qed.

Lemma In_dict_get k v d : NoDup (keys d) -> In (k, v) d -> dict_get k d = Some v.
Proof.
  induction d as [|[k' v'] r IH]; cbn; [contradiction|].
  intros Hnd [E|Hin].
  - injection E as -> ->. now rewrite String.eqb_refl.
  - inversion Hnd as [|? ? Hk Hr]; subst.
    destruct (String.eqb_spec k k') as [->|Hne].
    + elim Hk. eapply In_keys; eassumption.
    + auto.
Qed.

Lemma dict_mem_true k d : dict_mem k d = true <-> In k (keys d).
Proof.
  unfold dict_mem. destruct (dict_get k d) eqn:E.
  - split; [|reflexivity]. intros _. eapply In_keys, dict_get_In; eassumption.
  - split; [discriminate|]. intro H. apply dict_get_None in E. contradiction.
Qed.

Lemma dict_set_fresh k v d : dict_get k d = None -> dict_set k v d = d ++ [(k, v)].
Proof.
  induction d as [|[k' v'] r IH]; cbn; [reflexivity|].
  destruct (String.eqb k k'); [discriminate|].
  intro H. now rewrite IH.
Qed.

Lemma In_dict_set k v d x : In x (dict_set k v d) -> x = (k, v) \/ In x d.
Proof.
  induction d as [|[k' v'] r IH]; cbn.
  - intros [<-|[]]. now left.
  - destruct (String.eqb_spec k k') as [->|Hne]; cbn.
    + intros [<-|Hin]; [now left | right; now right].
    + intros [<-|Hin]; [right; now left|].
      destruct (IH Hin) as [->|Hd]; [now left | right; now right].
Qed.

Lemma keys_dict_set k v d :
  keys (dict_set k v d) = if dict_mem k d then keys d else keys d ++ [k].
Proof.
  unfold dict_mem, keys.
  induction d as [|[k' v'] r IH]; cbn; [reflexivity|].
  destruct (String.eqb k k'); cbn; [reflexivity|].
  rewrite IH. now destruct (dict_get k r).
Qed.

Lemma NoDup_keys_dict_set k v d : NoDup (keys d) -> NoDup (keys (dict_set k v d)).
Proof.
  intro H. rewrite keys_dict_set.
  destruct (dict_mem k d) eqn:E; [assumption|].
  assert (~ In k (keys d)) as Hk.
  { intro Hin. apply dict_mem_true in Hin. congruence. }
  clear E. induction (keys d) as [|a l IH]; cbn.
  - constructor; [intros []|constructor].
  - inversion H as [|? ? Ha Hl]; subst. constructor.
    + rewrite in_app_iff. intros [Hin|[E|[]]]; [contradiction|].
      apply Hk. now left.
    + apply IH; [assumption|]. intro Hin. apply Hk. now right.
Qed.


Lemma In_dict_del k d x : In x (dict_del k d) -> In x d.
Proof.
  induction d as [|[k' v'] r IH]; cbn; [auto|].
  destruct (String.eqb k k'); cbn.
  - now right.
  - intros [<-|Hin]; [now left | right; auto].
Qed.

Lemma In_keys_dict_del k d x : In x (keys (dict_del k d)) -> In x (keys d).
Proof.
  unfold keys. rewrite !in_map_iff.
  intros [y [E Hy]]. exists y. split; [assumption|].
  eapply In_dict_del; eassumption.
Qed.

Lemma NoDup_keys_dict_del k d : NoDup (keys d) -> NoDup (keys (dict_del k d)).
Proof.
  induction d as [|[k' v'] r IH]; cbn; [auto|].
  intro H. inversion H as [|? ? Hk Hr]; subst.
  destruct (String.eqb k k'); cbn; [assumption|].
  constructor; [|auto].
  intro Hin. apply Hk. eapply In_keys_dict_del; eassumption.
Qed.


Lemma forallb_dict_set (P : string * V -> bool) k v d :
  forallb P d = true -> P (k, v) = true -> forallb P (dict_set k v d) = true.
Proof.
  intros Hd Hkv. apply forallb_forall. intros x Hx.
  destruct (In_dict_set _ _ _ _ Hx) as [->|Hin]; [assumption|].
  rewrite forallb_forall in Hd. auto.
Qed.

Lemma forallb_dict_del (P : string * V -> bool) k d :
  forallb P d = true -> forallb P (dict_del k d) = true.
Proof.
  rewrite !forallb_forall. intros Hd x Hx.
  apply Hd. eapply In_dict_del; eassumption.
Qed.

End DictFacts.

(* ===================================================================== *)
(** ** Facts about [sorted] on integer keys                               *)
(* ===================================================================== *)

Section SortedFacts.

Context {A : Type} (key : A -> pyval).

Lemma py_lt_int (x y : A) :
  is_int (key x) = true -> is_int (key y) = true ->
  py_lt (key y) (key x) = Ok ((zkey key) y <? (zkey key) x).
Proof.
  unfold zkey. destruct (key x), (key y); cbn; try discriminate. reflexivity.
Qed.

Lemma insert_by_ok (x : A) (l : list A) :
  is_int (key x) = true -> (int_keys key) l -> StronglySorted (key_le key) l ->
  exists l', insert_by key x l = Ok l'
             /\ Permutation (x :: l) l' /\ StronglySorted (key_le key) l'.
Proof.
  intros Hx. induction l as [|y r IH]; intros Hl Hs; cbn.
  - exists [x]. repeat split; [reflexivity | repeat constructor].
  - inversion Hl as [|? ? Hy Hr]; subst.
    apply StronglySorted_inv in Hs as [Hsr Hyr].
    rewrite (py_lt_int x y Hx Hy).
    destruct (Z.ltb_spec ((zkey key) y) ((zkey key) x)) as [Hlt|Hge].
    + destruct (IH Hr Hsr) as [r' [-> [Hp Hs']]].
      exists (y :: r'). split; [reflexivity|]. split.
      * rewrite perm_swap. now constructor.
      * constructor; [assumption|].
        eapply Permutation_Forall; [exact Hp|].
        constructor; [unfold key_le; lia | assumption].
    + exists (x :: y :: r). split; [reflexivity|]. split; [reflexivity|].
      constructor; [now constructor|].
      constructor; [exact Hge|].
      eapply Forall_impl; [|exact Hyr]. unfold key_le. intros; lia.
Qed.

Lemma sorted_ok (l : list A) :
  (int_keys key) l ->
  exists l', sorted key l = Ok l' /\ Permutation l l' /\ StronglySorted (key_le key) l'.
Proof.
  induction l as [|x r IH]; intro Hl; cbn.
  - exists []. repeat split; constructor.
  - inversion Hl as [|? ? Hx Hr]; subst.
    destruct (IH Hr) as [r' [-> [Hp Hs]]].
    assert ((int_keys key) r') as Hr' by (eapply Permutation_Forall; eassumption).
    destruct (insert_by_ok x r' Hx Hr' Hs) as [l' [-> [Hp' Hs']]].
    exists l'. split; [reflexivity|]. split; [|assumption].
    rewrite <- Hp'. now constructor.
Qed.

Lemma sorted_strict (l : list A) :
  StronglySorted (key_le key) l -> NoDup (map (zkey key) l) -> StronglySorted (key_lt key) l.
Proof.
  induction l as [|x r IH]; intros Hs Hnd; [constructor|].
  apply StronglySorted_inv in Hs as [Hsr Hxr].
  cbn in Hnd. inversion Hnd as [|? ? Hx Hr]; subst.
  constructor; [auto|].
  rewrite Forall_forall in *. intros y Hy.
  specialize (Hxr y Hy). unfold key_le, key_lt in *.
  assert ((zkey key) x <> (zkey key) y); [|lia].
  intro E. apply Hx. rewrite E. now apply in_map.
Qed.

Lemma strictly_sorted_unique (l1 : list A) :
  forall l2, StronglySorted (key_lt key) l1 -> StronglySorted (key_lt key) l2 ->
             Permutation l1 l2 -> l1 = l2.
Proof.
  induction l1 as [|a r1 IH]; intros l2 H1 H2 Hp.
  - now apply Permutation_nil in Hp.
  - destruct l2 as [|b r2].
    + apply Permutation_sym, Permutation_nil in Hp. discriminate.
    + apply StronglySorted_inv in H1 as [Hs1 Ha].
      apply StronglySorted_inv in H2 as [Hs2 Hb].
      rewrite Forall_forall in Ha, Hb.
      assert ((zkey key) a = (zkey key) b) as E.
      { assert (In a (b :: r2)) as Hin
          by (eapply Permutation_in; [exact Hp | now left]).
        assert (In b (a :: r1)) as Hin'
          by (eapply Permutation_in; [apply Permutation_sym; exact Hp | now left]).
        destruct Hin as [->|Hin]; [reflexivity|].
        destruct Hin' as [->|Hin']; [reflexivity|].
        specialize (Ha _ Hin'). specialize (Hb _ Hin).
        unfold key_lt in *. lia. }
      assert (a = b) as ->.
      { assert (In a (b :: r2)) as Hin
          by (eapply Permutation_in; [exact Hp | now left]).
        destruct Hin as [->|Hin]; [reflexivity|].
        specialize (Hb _ Hin). unfold key_lt in Hb. lia. }
      f_equal. apply IH; try assumption.
      eapply Permutation_cons_inv; eassumption.
Qed.

Lemma strictly_sorted_filter (p : A -> bool) (l : list A) :
  StronglySorted (key_lt key) l -> StronglySorted (key_lt key) (filter p l).
Proof.
  induction l as [|x r IH]; intro Hs; cbn; [constructor|].
  apply StronglySorted_inv in Hs as [Hsr Hx].
  destruct (p x); [|auto].
  constructor; [auto|].
  rewrite Forall_forall in *. intros y Hy.
  apply filter_In in Hy as [Hy _]. auto.
Qed.

Lemma Permutation_filter' (p : A -> bool) (l l' : list A) :
  Permutation l l' -> Permutation (filter p l) (filter p l').
Proof.
  induction 1 as [|x l l' _ IH|x y l|l l' l'' _ IH1 _ IH2]; cbn.
  - constructor.
  - destruct (p x); [now constructor | assumption].
  - destruct (p x), (p y); try reflexivity. apply perm_swap.
  - etransitivity; eassumption.
Qed.

Lemma NoDup_map_filter (p : A -> bool) (l : list A) :
  NoDup (map (zkey key) l) -> NoDup (map (zkey key) (filter p l)).
Proof.
  induction l as [|x r IH]; cbn; intro H; [constructor|].
  inversion H as [|? ? Hx Hr]; subst.
  destruct (p x); cbn; [|auto].
  constructor; [|auto].
  rewrite in_map_iff. intros [y [E Hy]].
  apply filter_In in Hy as [Hy _]. apply Hx. rewrite <- E. now apply in_map.
Qed.

(** With distinct integer keys, [sorted] returns the one strictly
    ascending arrangement of its argument. *)
Lemma sorted_spec (l : list A) :
  (int_keys key) l -> NoDup (map (zkey key) l) ->
  exists l', sorted key l = Ok l' /\ Permutation l l' /\ StronglySorted (key_lt key) l'.
Proof.
  intros Hl Hnd. destruct (sorted_ok l Hl) as [l' [E [Hp Hs]]].
  exists l'. repeat split; try assumption.
  apply sorted_strict; [assumption|].
  eapply Permutation_NoDup; [|exact Hnd]. now apply Permutation_map.
Qed.

Lemma sorted_filter (p : A -> bool) (l l' : list A) :
  (int_keys key) l -> NoDup (map (zkey key) l) -> sorted key l = Ok l' ->
  sorted key (filter p l) = Ok (filter p l').
Proof.
  intros Hl Hnd E.
  destruct (sorted_spec l Hl Hnd) as [l0 [E0 [Hp Hs]]].
  rewrite E in E0. injection E0 as <-.
  assert ((int_keys key) (filter p l)) as Hfl.
  { unfold int_keys in *. rewrite Forall_forall in *.
    intros x Hx. apply filter_In in Hx as [Hx _]. auto. }
  destruct (sorted_spec (filter p l) Hfl (NoDup_map_filter p l Hnd))
    as [l1 [E1 [Hp1 Hs1]]].
  rewrite E1. f_equal.
  apply strictly_sorted_unique; [assumption | now apply strictly_sorted_filter |].
  rewrite <- Hp1. now apply Permutation_filter'.
Qed.

Lemma sorted_perm_eq (l1 l2 : list A) :
  (int_keys key) l1 -> NoDup (map (zkey key) l1) -> Permutation l1 l2 ->
  sorted key l1 = sorted key l2.
Proof.
  intros H1 Hnd Hp.
  assert ((int_keys key) l2) as H2 by (eapply Permutation_Forall; eassumption).
  assert (NoDup (map (zkey key) l2)) as Hnd2
    by (eapply Permutation_NoDup; [apply Permutation_map; exact Hp | assumption]).
  destruct (sorted_spec l1 H1 Hnd) as [a [-> [Hpa Hsa]]].
  destruct (sorted_spec l2 H2 Hnd2) as [b [-> [Hpb Hsb]]].
  f_equal. apply strictly_sorted_unique; try assumption.
  rewrite <- Hpa, <- Hpb. assumption.
Qed.

End SortedFacts.

(* ===================================================================== *)
(** ** Facts about the store of testfile.py                               *)
(* ===================================================================== *)

Section StoreFacts.

Import testfile.

Implicit Types (st : State) (d : dict Task) (t : Task) (k : string).

Lemma keyed_spec d :
  keyed d = true <->
  NoDup (keys d) /\ (forall k t, In (k, t) d -> k = py_str (id t)).
Proof.
  unfold keyed. rewrite andb_true_iff, distinct_NoDup, forallb_forall.
  split; intros [H1 H2]; (split; [assumption|]).
  - intros k t Hin. apply String.eqb_eq. exact (H2 (k, t) Hin).
  - intros [k t] Hin. apply String.eqb_eq. cbn. auto.
Qed.

Lemma keyed_set d k t :
  keyed d = true -> k = py_str (id t) -> keyed (dict_set k t d) = true.
Proof.
  rewrite !keyed_spec. intros [Hnd Hk] ->. split.
  - now apply NoDup_keys_dict_set.
  - intros k' t' Hin. apply In_dict_set in Hin as [E|Hin]; [congruence | auto].
Qed.

Lemma keyed_del d k : keyed d = true -> keyed (dict_del k d) = true.
Proof.
  rewrite !keyed_spec. intros [Hnd Hk]. split.
  - now apply NoDup_keys_dict_del.
  - intros k' t' Hin. apply In_dict_del in Hin. auto.
Qed.

Lemma keyed_lookup d k t :
  keyed d = true -> dict_get k d = Some t -> k = py_str (id t).
Proof.
  rewrite keyed_spec. intros [_ Hk] Hget. apply Hk. now apply dict_get_In.
Qed.

(** Looking a key up finds a task exactly when some held task has an id
    that reads as that key. *)
Lemma lookup_held d k :
  keyed d = true ->
  (exists t, dict_get k d = Some t) <->
  (exists k' t, In (k', t) d /\ py_str (id t) = k).
Proof.
  intro Hk. pose proof Hk as Hk'. apply keyed_spec in Hk' as [Hnd Hkey]. split.
  - intros [t Hget]. exists k, t. split; [now apply dict_get_In|].
    symmetry. eapply keyed_lookup; eassumption.
  - intros [k' [t [Hin E]]]. exists t. apply In_dict_get; [assumption|].
    rewrite <- E, <- (Hkey _ _ Hin). assumption.
Qed.

Lemma lookup_absent d k :
  keyed d = true ->
  (forall k' t, In (k', t) d -> py_str (id t) <> k) -> dict_get k d = None.
Proof.
  intros Hk Habs. destruct (dict_get k d) as [t|] eqn:E; [|reflexivity].
  exfalso. eapply Habs; [eapply dict_get_In; exact E|].
  symmetry. eapply keyed_lookup; eassumption.
Qed.

Lemma well_formed_spec d :
  well_formed d = true <->
  keyed d = true /\ stamped d = true /\ enumerated d = true /\ numbered d = true.
Proof. unfold well_formed. rewrite !andb_true_iff. tauto. Qed.

(** *** Saving *)

Lemma save_tasks_ok st data :
  dump_data (tasks st) = Ok data ->
  save_tasks st = Return tt (set_disk (json_document data) st).
Proof. intro E. unfold save_tasks, bind, get_state. rewrite E. reflexivity. Qed.

Lemma save_tasks_err st e :
  dump_data (tasks st) = Err e -> save_tasks st = Raise e st.
Proof. intro E. unfold save_tasks, bind, get_state. rewrite E. reflexivity. Qed.

Lemma save_tasks_tasks st : tasks (state_of (save_tasks st)) = tasks st.
Proof.
  destruct (dump_data (tasks st)) as [data|e] eqn:E.
  - now rewrite (save_tasks_ok _ _ E).
  - now rewrite (save_tasks_err _ _ E).
Qed.

Lemma dict_comprehension_enumerated d :
  enumerated d = true ->
  forall acc, exists data,
    dict_comprehension d
      (fun item => match to_dict (snd item) with
                   | Ok r => Ok (py_str (PStr (fst item)), r)
                   | Err e => Err e
                   end) acc = Ok data.
Proof.
  induction d as [|[k t] r IH]; cbn; intros H acc.
  - now exists acc.
  - apply andb_true_iff in H as [Ht Hr].
    unfold to_dict. destruct (status t); [|discriminate]. apply IH, Hr.
Qed.

Lemma dump_data_enumerated d :
  enumerated d = true -> exists data, dump_data d = Ok data.
Proof. intro H. apply dict_comprehension_enumerated, H. Qed.

Lemma save_tasks_enumerated st :
  enumerated (tasks st) = true ->
  exists data, dump_data (tasks st) = Ok data
               /\ save_tasks st = Return tt (set_disk (json_document data) st).
Proof.
  intro H. destruct (dump_data_enumerated _ H) as [data E].
  exists data. split; [assumption | now apply save_tasks_ok].
Qed.

(** A successful save leaves the serialization of the tasks in the file. *)
Lemma save_tasks_persists st st' :
  save_tasks st = Return tt st' -> persisted st' /\ tasks st' = tasks st.
Proof.
  destruct (dump_data (tasks st)) as [data|e] eqn:E.
  - rewrite (save_tasks_ok _ _ E). intros [= <-]. split; [|reflexivity].
    exists data. split; [exact E | reflexivity].
  - rewrite (save_tasks_err _ _ E). discriminate.
Qed.

Lemma after_save_tasks {A} (a : A) st :
  tasks (state_of ((save_tasks ;; ret a) st)) = tasks st.
Proof.
  unfold bind. pose proof (save_tasks_tasks st) as H.
  destruct (save_tasks st); exact H.
Qed.

Lemma save_tasks_ok_state st st' :
  save_tasks st = Return tt st' -> clock st' = clock st /\ ticks st' = ticks st.
Proof.
  destruct (dump_data (tasks st)) as [data|e] eqn:E.
  - rewrite (save_tasks_ok _ _ E). intros [= <-]. split; reflexivity.
  - rewrite (save_tasks_err _ _ E). discriminate.
Qed.

End StoreFacts.

(* ===================================================================== *)
(** ** The operations of the store, one by one                            *)
(* ===================================================================== *)

Section Operations.

Import testfile.

Implicit Types (st : State) (d : dict Task) (t : Task) (k : string).

Lemma enumerated_set d k t :
  enumerated d = true -> is_member (status t) = true ->
  enumerated (dict_set k t d) = true.
Proof. intros. now apply forallb_dict_set. Qed.

Lemma stamped_set d k t :
  stamped d = true -> truthy (created_at t) = true ->
  stamped (dict_set k t d) = true.
Proof. intros. now apply forallb_dict_set. Qed.

Lemma numbered_set d k t :
  numbered d = true -> is_int (id t) = true -> numbered (dict_set k t d) = true.
Proof. intros. now apply forallb_dict_set. Qed.

Lemma forallb_lookup (P : string * Task -> bool) d k t :
  forallb P d = true -> dict_get k d = Some t -> P (k, t) = true.
Proof.
  intros H Hget. rewrite forallb_forall in H. apply H. now apply dict_get_In.
Qed.

(** The tail shared by [update_task], [mark_in_progress] and [mark_done]
    once the task is found: change the object, save, return True. *)
Lemma mutate_then_save st i (f : Task -> Task) t :
  enumerated (tasks st) = true -> is_member (status (f t)) = true ->
  exists st',
    (mutate i f t ;; save_tasks ;; ret true) st = Return true st'
    /\ persisted st'
    /\ tasks st' = dict_set (py_str i) (f t) (tasks st)
    /\ clock st' = clock st /\ ticks st' = ticks st.
Proof.
  intros He Hm.
  set (st1 := set_tasks (dict_set (py_str i) (f t)) st).
  assert (enumerated (tasks st1) = true) as He1
    by (apply enumerated_set; assumption).
  destruct (save_tasks_enumerated st1 He1) as [data [Ed Es]].
  exists (set_disk (json_document data) st1).
  split; [|split; [|repeat split]].
  - unfold bind, mutate, modify. fold st1. rewrite Es. reflexivity.
  - exists data. split; [exact Ed | reflexivity].
Qed.

(** Runs the lookup [task = self.get_task(task_id)] that opens a method,
    given what the dictionary holds under the key. *)
Ltac take_lookup H :=
  unfold testfile.get_task; unfold bind at 1 2;
  unfold get_state, ret at 1; rewrite H.

Lemma update_task_found st i new t :
  dict_get (py_str i) (tasks st) = Some t ->
  update_task i new st
  = (mutate i (fun t => Task_update_description t new) t ;; save_tasks ;; ret true) st.
Proof. intro H. unfold update_task. now take_lookup H. Qed.

Lemma mark_in_progress_found st i t :
  dict_get (py_str i) (tasks st) = Some t ->
  mark_in_progress i st
  = (mutate i Task_mark_in_progress t ;; save_tasks ;; ret true) st.
Proof. intro H. unfold mark_in_progress. now take_lookup H. Qed.

Lemma mark_done_found st i t :
  dict_get (py_str i) (tasks st) = Some t ->
  mark_done i st = (mutate i Task_mark_done t ;; save_tasks ;; ret true) st.
Proof. intro H. unfold mark_done. now take_lookup H. Qed.

Lemma not_found st i new :
  dict_get (py_str i) (tasks st) = None ->
  update_task i new st = Return false st
  /\ delete_task i st = Return false st
  /\ mark_in_progress i st = Return false st
  /\ mark_done i st = Return false st.
Proof.
  intro H.
  unfold update_task, delete_task, mark_in_progress, mark_done, get_task,
    dict_mem, bind, get_state, ret.
  rewrite H. repeat split.
Qed.

Lemma delete_task_found st i t :
  dict_get (py_str i) (tasks st) = Some t ->
  enumerated (tasks st) = true ->
  exists st',
    delete_task i st = Return true st'
    /\ persisted st'
    /\ tasks st' = dict_del (py_str i) (tasks st)
    /\ clock st' = clock st /\ ticks st' = ticks st.
Proof.
  intros H He.
  set (st1 := set_tasks (dict_del (py_str i)) st).
  assert (enumerated (tasks st1) = true) as He1
    by (apply forallb_dict_del; assumption).
  destruct (save_tasks_enumerated st1 He1) as [data [Ed Es]].
  exists (set_disk (json_document data) st1).
  split; [|split; [|repeat split]].
  - unfold delete_task, dict_mem, bind, get_state, modify. rewrite H.
    fold st1. rewrite Es. reflexivity.
  - exists data. split; [exact Ed | reflexivity].
Qed.

(** On a store whose statuses are all members, the four operations that
    take an id succeed on an id found under its key. *)
Lemma found_returns_true st i new t :
  enumerated (tasks st) = true ->
  dict_get (py_str i) (tasks st) = Some t ->
  (exists st', update_task i new st = Return true st' /\ persisted st')
  /\ (exists st', delete_task i st = Return true st' /\ persisted st')
  /\ (exists st', mark_in_progress i st = Return true st' /\ persisted st')
  /\ (exists st', mark_done i st = Return true st' /\ persisted st').
Proof.
  intros He Hget.
  pose proof (forallb_lookup _ _ _ _ He Hget) as Hm. cbn in Hm.
  repeat split.
  - rewrite (update_task_found _ _ _ _ Hget).
    destruct (mutate_then_save st i
                (fun t => Task_update_description t new) t He Hm)
      as [st' [E [Hp _]]]. eauto.
  - destruct (delete_task_found st i t Hget He) as [st' [E [Hp _]]]. eauto.
  - rewrite (mark_in_progress_found _ _ _ Hget).
    destruct (mutate_then_save st i Task_mark_in_progress t He eq_refl)
      as [st' [E [Hp _]]]. eauto.
  - rewrite (mark_done_found _ _ _ Hget).
    destruct (mutate_then_save st i Task_mark_done t He eq_refl)
      as [st' [E [Hp _]]]. eauto.
Qed.

End Operations.

(* ===================================================================== *)
(** ** Assigning identifiers                                              *)
(* ===================================================================== *)

Section Adding.

Import testfile.

Implicit Types (st : State) (d : dict Task) (t : Task) (k : string).

Lemma py_max_ge (r : list Z) :
  forall n, n <= py_max n r /\ Forall (fun x => x <= py_max n r) r.
Proof.
  unfold py_max. induction r as [|a r IH]; intro n; cbn.
  - split; [lia | constructor].
  - destruct (IH (Z.max n a)) as [H1 H2]. split; [lia|].
    constructor; [lia | assumption].
Qed.

Lemma py_max_in (r : list Z) : forall n, In (py_max n r) (n :: r).
Proof.
  unfold py_max. induction r as [|a r IH]; intro n; cbn.
  - now left.
  - destruct (IH (Z.max n a)) as [E|Hin].
    + rewrite <- E. destruct (Z.max_spec n a) as [[_ ->]|[_ ->]]; auto.
    + right. now right.
Qed.

Lemma numbered_id d k t :
  numbered d = true -> In (k, t) d -> id t = PInt (zkey id t).
Proof.
  unfold numbered. rewrite forallb_forall. intros H Hin.
  specialize (H _ Hin). cbn in H. unfold zkey.
  destruct (id t); try discriminate. reflexivity.
Qed.

Lemma ints_of_keys d :
  keyed d = true -> numbered d = true ->
  ints_of (keys d) = Ok (map (fun kt => zkey id (snd kt)) d).
Proof.
  intros Hk Hn. apply keyed_spec in Hk as [_ Hk].
  induction d as [|[k t] r IH]; cbn; [reflexivity|].
  assert (k = str_of_int (zkey id t)) as ->.
  { rewrite (Hk k t) by now left.
    rewrite (numbered_id ((k, t) :: r) k t Hn) at 1 by now left. reflexivity. }
  rewrite py_int_str_of_int.
  cbn in Hn. apply andb_true_iff in Hn as [_ Hn].
  change (map fst r) with (keys r).
  rewrite IH; [reflexivity | | assumption].
  intros k' t' Hin. apply Hk. now right.
Qed.

(** [get_next_id] returns, reads nothing but the keys, and answers one
    more than the largest id held (1 for an empty store). *)
Lemma get_next_id_ok st :
  keyed (tasks st) = true -> numbered (tasks st) = true ->
  exists n,
    get_next_id st = Return n st
    /\ (forall k t, In (k, t) (tasks st) -> zkey id t < n)
    /\ (tasks st = [] -> n = 1)
    /\ (tasks st <> [] -> exists k t, In (k, t) (tasks st) /\ zkey id t = n - 1).
Proof.
  intros Hk Hn. unfold get_next_id, bind, get_state.
  pose proof (ints_of_keys _ Hk Hn) as E.
  destruct (tasks st) as [|[k0 t0] r] eqn:Et.
  - exists 1. repeat split; [intros k t [] | congruence].
  - rewrite E. cbn [map snd lift ret].
    set (n0 := zkey id t0). set (ns := map (fun kt => zkey id (snd kt)) r).
    exists (py_max n0 ns + 1). split; [reflexivity|].
    destruct (py_max_ge ns n0) as [H0 Hr].
    split; [|split; [discriminate|]].
    + intros k t [Hin|Hin].
      * injection Hin as _ <-. fold n0. lia.
      * rewrite Forall_forall in Hr.
        assert (In (zkey id t) ns) as Hin'
          by (unfold ns; apply (in_map (fun kt => zkey id (snd kt)) r (k, t) Hin)).
        specialize (Hr _ Hin'). lia.
    + intros _. replace (py_max n0 ns + 1 - 1) with (py_max n0 ns) by lia.
      destruct (py_max_in ns n0) as [E'|Hin].
      * exists k0, t0. split; [now left | now rewrite <- E'].
      * unfold ns in Hin. apply in_map_iff in Hin as [[k t] [E' Hin]].
        exists k, t. split; [now right | exact E'].
Qed.


(** A key that reads as an integer above every held id is new. *)
Lemma fresh_key d n :
  keyed d = true -> numbered d = true ->
  (forall k t, In (k, t) d -> zkey id t < n) ->
  dict_get (str_of_int n) d = None.
Proof.
  intros Hk Hn Hlt. apply lookup_absent; [assumption|].
  intros k t Hin E.
  rewrite (numbered_id d k t Hn Hin) in E. cbn in E.
  apply str_of_int_inj in E. specialize (Hlt _ _ Hin). lia.
Qed.

(** What [add_task] does on a store of the data model. *)
Lemma add_task_ok st desc :
  well_formed (tasks st) = true ->
  exists n t st',
    add_task desc st = Return t st'
    /\ get_next_id st = Return n st
    /\ t = mkTask (PInt n) desc (Member TODO)
                  (PStr (isoformat (clock st (ticks st))))
    /\ tasks st' = tasks st ++ [(str_of_int n, t)]
    /\ persisted st'
    /\ clock st' = clock st /\ ticks st' = S (ticks st)
    /\ well_formed (tasks st') = true.
Proof.
  intro Hwf. apply well_formed_spec in Hwf as [Hk [Hs [He Hn]]].
  destruct (get_next_id_ok st Hk Hn) as [n [En [Hlt _]]].
  set (t := mkTask (PInt n) desc (Member TODO)
                   (PStr (isoformat (clock st (ticks st))))).
  pose proof (fresh_key _ n Hk Hn Hlt) as Hfresh.
  set (st1 := mkState (tasks st ++ [(str_of_int n, t)]) (disk st) (clock st)
                      (S (ticks st))).
  assert (keyed (tasks st1) = true) as Hk1.
  { cbn. rewrite <- (dict_set_fresh _ t _ Hfresh). now apply keyed_set. }
  assert (stamped (tasks st1) = true) as Hs1.
  { cbn. rewrite <- (dict_set_fresh _ t _ Hfresh). now apply stamped_set. }
  assert (enumerated (tasks st1) = true) as He1.
  { cbn. rewrite <- (dict_set_fresh _ t _ Hfresh). now apply enumerated_set. }
  assert (numbered (tasks st1) = true) as Hn1.
  { cbn. rewrite <- (dict_set_fresh _ t _ Hfresh). now apply numbered_set. }
  destruct (save_tasks_enumerated st1 He1) as [data [Ed Es]].
  exists n, t, (set_disk (json_document data) st1).
  split; [|split; [exact En|split; [reflexivity|split; [reflexivity|
    split; [|split; [reflexivity|split; [reflexivity|]]]]]]].
  - unfold add_task. unfold bind at 1. rewrite En.
    cbv beta iota zeta delta
      [bind Task__init__ lift coerce_status ret now modify set_tasks truthy].
    cbn [tasks disk clock ticks py_str].
    rewrite (dict_set_fresh _ _ _ Hfresh). fold t. fold st1.
    rewrite Es. reflexivity.
  - exists data. split; [exact Ed | reflexivity].
  - apply well_formed_spec. auto.
Qed.

Lemma ints_of_spec (ks : list string) (ns : list Z) :
  ints_of ks = Ok ns -> Forall2 (fun k n => py_int k = Some n) ks ns.
Proof.
  revert ns. induction ks as [|k r IH]; cbn; intros ns H.
  - injection H as <-. constructor.
  - destruct (py_int k) as [n|] eqn:E; [|discriminate].
    destruct (ints_of r) as [ms|]; [|discriminate].
    injection H as <-. constructor; auto.
Qed.

Lemma ints_of_error (ks : list string) (e : exn) :
  ints_of ks = Err e -> e = ValueError.
Proof.
  induction ks as [|k r IH]; cbn; [discriminate|].
  destruct (py_int k); [|now intros [= <-]].
  destruct (ints_of r); [discriminate|]. intros [= <-]. now apply IH.
Qed.

(** What the expression [max(int(k) for k in keys) + 1] guarantees, for
    any keys at all. *)
Lemma next_above_keys (ks : list string) (n0 : Z) (ns : list Z) :
  ints_of ks = Ok (n0 :: ns) ->
  let n := py_max n0 ns + 1 in
  (forall k, In k ks -> exists m, py_int k = Some m /\ m < n)
  /\ ~ In (str_of_int n) ks.
Proof.
  intros H n. apply ints_of_spec in H.
  assert (forall k, In k ks -> exists m, py_int k = Some m /\ m < n) as Hlt.
  { intros k Hin.
    destruct (py_max_ge ns n0) as [H0 Hr]. rewrite Forall_forall in Hr.
    assert (exists m, In m (n0 :: ns) /\ py_int k = Some m) as [m [Hm E]].
    { clear -H Hin. induction H as [|k' m' ks' ns' E _ IH]; [destruct Hin|].
      destruct Hin as [->|Hin].
      - exists m'. split; [now left | assumption].
      - destruct (IH Hin) as [m [Hm Em]]. exists m. split; [now right | assumption]. }
    exists m. split; [assumption|].
    destruct Hm as [<-|Hm]; [unfold n; lia|].
    specialize (Hr _ Hm). unfold n. lia. }
  split; [assumption|].
  intro Hin. destruct (Hlt _ Hin) as [m [E Hm]].
  rewrite py_int_str_of_int in E. injection E as <-. lia.
Qed.


(** [get_next_id] in any state: it raises ValueError, or it returns a
    number above what every key reads as, whose text is then not a key. *)
Lemma get_next_id_outcome st :
  get_next_id st = Raise ValueError st
  \/ exists n,
       get_next_id st = Return n st
       /\ (forall k, In k (keys (tasks st)) ->
                     exists m, py_int k = Some m /\ m < n)
       /\ ~ In (str_of_int n) (keys (tasks st)).
Proof.
  unfold get_next_id, bind, get_state.
  destruct (tasks st) as [|kt r] eqn:Et.
  - right. exists 1. split; [reflexivity|]. split; [intros k []|intros []].
  - rewrite <- Et.
    destruct (ints_of (keys (tasks st))) as [[|n0 ns]|e0] eqn:E; cbn.
    + now left.
    + right. exists (py_max n0 ns + 1). split; [reflexivity|].
      exact (next_above_keys _ _ _ E).
    + left. now rewrite (ints_of_error _ _ E).
Qed.

(** [add_task] after [get_next_id] has returned [n]: the task is built
    with one reading of the clock and put at the end of the dictionary,
    then [save_tasks] is called. *)
Lemma add_task_unfolded st desc n :
  get_next_id st = Return n st ->
  ~ In (str_of_int n) (keys (tasks st)) ->
  let t := mkTask (PInt n) desc (Member TODO)
                  (PStr (isoformat (clock st (ticks st)))) in
  add_task desc st
  = (save_tasks ;; ret t)
      (mkState (tasks st ++ [(str_of_int n, t)]) (disk st) (clock st)
               (S (ticks st))).
Proof.
  intros En Hfresh t. apply dict_get_None in Hfresh.
  unfold add_task. unfold bind at 1. rewrite En.
  cbv beta iota zeta delta
    [bind Task__init__ lift coerce_status ret now modify set_tasks truthy].
  cbn [tasks disk clock ticks py_str].
  rewrite (dict_set_fresh _ _ _ Hfresh). reflexivity.
Qed.

(** In any state, an [add_task] that returns has appended the new task
    under the text of an id above what every key reads as. *)
Lemma add_task_returns st desc t st' :
  add_task desc st = Return t st' ->
  exists n,
    t = mkTask (PInt n) desc (Member TODO)
               (PStr (isoformat (clock st (ticks st))))
    /\ (forall k, In k (keys (tasks st)) -> exists m, py_int k = Some m /\ m < n)
    /\ ~ In (str_of_int n) (keys (tasks st))
    /\ tasks st' = tasks st ++ [(str_of_int n, t)]
    /\ persisted st'
    /\ clock st' = clock st /\ ticks st' = S (ticks st).
Proof.
  destruct (get_next_id_outcome st) as [E|[n [E [Hlt Hfresh]]]].
  - unfold add_task. unfold bind at 1. rewrite E. discriminate.
  - rewrite (add_task_unfolded st desc n E Hfresh). unfold bind.
    destruct (save_tasks _) as [[] s2|e s2] eqn:Es; [|discriminate].
    unfold ret. intros [= <- <-].
    destruct (save_tasks_ok_state _ _ Es) as [Hc Hk].
    apply save_tasks_persists in Es as [Hp Ht].
    exists n. split; [reflexivity|]. split; [assumption|].
    split; [assumption|]. split; [exact Ht|]. split; [assumption|].
    split; [exact Hc | exact Hk].
Qed.


End Adding.
Section FileContents.

Import testfile.

Implicit Types (st : State) (d : dict Task) (t : Task) (k : string).

Lemma to_dict_record_of t :
  is_member (status t) = true -> to_dict t = Ok (record_of t).
Proof.
  unfold record_of, to_dict. destruct (status t); [reflexivity | discriminate].
Qed.

(** The mapping [save_tasks] builds: one record per task, under the same
    key and in the same order. *)
Lemma dict_comprehension_closed d :
  forall acc : dict jrecord,
    NoDup (keys acc ++ keys d) -> enumerated d = true ->
    dict_comprehension d
      (fun item => match to_dict (snd item) with
                   | Ok r => Ok (py_str (PStr (fst item)), r)
                   | Err e => Err e
                   end) acc
    = Ok (acc ++ map (fun kt => (fst kt, record_of (snd kt))) d).
Proof.
  induction d as [|[k t] r IH]; intros acc Hnd He; cbn.
  - now rewrite app_nil_r.
  - cbn in He. apply andb_true_iff in He as [Ht Hr].
    rewrite (to_dict_record_of t Ht).
    assert (dict_get k acc = None) as Hfresh.
    { apply dict_get_None. intro Hin.
      apply NoDup_remove_2 in Hnd. apply Hnd, in_or_app. now left. }
    rewrite (dict_set_fresh _ _ _ Hfresh).
    rewrite IH; [now rewrite <- app_assoc | | assumption].
    unfold keys in *. rewrite map_app, <- app_assoc. exact Hnd.
Qed.

Lemma dump_data_closed d :
  NoDup (keys d) -> enumerated d = true ->
  dump_data d = Ok (map (fun kt => (fst kt, record_of (snd kt))) d).
Proof. intros Hnd He. now apply (dict_comprehension_closed d []). Qed.

Lemma dict_comprehension_not_enumerated d :
  enumerated d = false ->
  forall acc,
    dict_comprehension d
      (fun item => match to_dict (snd item) with
                   | Ok r => Ok (py_str (PStr (fst item)), r)
                   | Err e => Err e
                   end) acc = Err AttributeError.
Proof.
  induction d as [|[k t] r IH]; cbn; intros H acc; [discriminate|].
  unfold to_dict. destruct (status t); cbn in H; [|reflexivity].
  now apply IH.
Qed.

Lemma dump_data_not_enumerated d :
  enumerated d = false -> dump_data d = Err AttributeError.
Proof. intro H. now apply dict_comprehension_not_enumerated. Qed.

Lemma dump_data_ok_enumerated d data :
  dump_data d = Ok data -> enumerated d = true.
Proof.
  intro E. destruct (enumerated d) eqn:He; [reflexivity|].
  rewrite (dump_data_not_enumerated _ He) in E. discriminate.
Qed.

(** The document built from the records of [to_dict] is the one
    [file_holds] describes. *)
Lemma records_hold d :
  enumerated d = true ->
  file_holds (json_document (map (fun kt => (fst kt, record_of (snd kt))) d)) d.
Proof.
  intro He. eexists. split; [reflexivity|].
  induction d as [|[k t] r IH]; cbn; [constructor|].
  cbn in He. apply andb_true_iff in He as [Ht Hr].
  constructor; [|now apply IH].
  cbn. split; [reflexivity|].
  unfold record_of, to_dict. destruct (status t) as [m|v]; [|discriminate].
  now exists m.
Qed.

Lemma persisted_file_holds st :
  NoDup (keys (tasks st)) -> persisted st -> file_holds (disk st) (tasks st).
Proof.
  intros Hnd [data [Ed Hd]].
  pose proof (dump_data_ok_enumerated _ _ Ed) as He.
  rewrite (dump_data_closed _ Hnd He) in Ed. injection Ed as <-.
  rewrite Hd. now apply records_hold.
Qed.

(** What [file_holds] says is one document. *)
Lemma file_holds_unique f g d : file_holds f d -> file_holds g d -> f = g.
Proof.
  intros [x [-> Hx]] [y [-> Hy]]. do 2 f_equal.
  revert y Hy. induction Hx as [|[k t] [k1 e1] r r1 [Hk [m [Hm He]]] _ IH];
    intros y Hy; inversion Hy as [|? [k2 e2] ? r2 [Hk2 [m2 [Hm2 He2]]] Hr2];
    subst; [reflexivity|].
  cbn in *. subst. rewrite Hm in Hm2. injection Hm2 as <-.
  f_equal. now apply IH.
Qed.






End FileContents.

Section Reaching.

Import testfile.

Implicit Types (st : State) (d : dict Task) (t : Task) (k : string).

Lemma load_entry_keyed (e : jentry) st :
  keyed (tasks st) = true -> keyed (tasks (state_of (load_entry e st))) = true.
Proof.
  intro H.
  unfold load_entry, Task__init__, bind, lift, ret, raise, now, modify.
  destruct (subscript e "id"); [|exact H].
  destruct (subscript e "description"); [|exact H].
  destruct (subscript e "status") as [s|]; [|exact H].
  destruct (subscript e "created_at") as [c|]; [|exact H].
  destruct (coerce_status (Plain s)); [|exact H].
  destruct (truthy c); cbn; now apply keyed_set.
Qed.

Lemma for_each_load_keyed (items : dict jentry) :
  forall st, keyed (tasks st) = true ->
  keyed (tasks (state_of
                  (for_each items (fun item => load_entry (snd item)) st))) = true.
Proof.
  induction items as [|[key e] r IH]; intros st H; cbn; [assumption|].
  unfold bind. pose proof (load_entry_keyed e st H) as H1.
  destruct (load_entry e st) as [[] s1|x s1]; cbn in H1; [|assumption].
  now apply IH.
Qed.

Lemma load_tasks_keyed st :
  keyed (tasks st) = true -> keyed (tasks (state_of (load_tasks st))) = true.
Proof.
  intro H. unfold load_tasks. unfold bind at 1. unfold get_state.
  destruct (disk st) as [| | |[items|]]; try assumption.
  now apply for_each_load_keyed.
Qed.

Lemma get_next_id_state st : state_of (get_next_id st) = st.
Proof.
  unfold get_next_id, bind, get_state.
  destruct (tasks st); [reflexivity|].
  destruct (ints_of _) as [[|n r]|e]; reflexivity.
Qed.

Lemma add_task_keyed desc st :
  keyed (tasks st) = true -> keyed (tasks (state_of (add_task desc st))) = true.
Proof.
  intro H. unfold add_task. unfold bind at 1.
  pose proof (get_next_id_state st) as Hs.
  destruct (get_next_id st) as [n s1|e s1]; cbn in Hs; subst s1; [|assumption].
  unfold bind at 1.
  cbv beta iota zeta delta [bind Task__init__ lift coerce_status ret now truthy].
  change (keyed (tasks (state_of
     ((modify (set_tasks (dict_set (py_str (PInt n))
         (mkTask (PInt n) desc (Member TODO)
                 (PStr (isoformat (clock st (ticks st)))))));;
       save_tasks ;;
       ret (mkTask (PInt n) desc (Member TODO)
                   (PStr (isoformat (clock st (ticks st))))))
      (mkState (tasks st) (disk st) (clock st) (S (ticks st)))))) = true).
  unfold bind at 1. unfold modify. rewrite after_save_tasks.
  cbn. now apply keyed_set.
Qed.

Lemma mutate_keyed (f : Task -> Task) i t st :
  (forall t, id (f t) = id t) ->
  keyed (tasks st) = true -> dict_get (py_str i) (tasks st) = Some t ->
  keyed (tasks (state_of ((mutate i f t ;; save_tasks ;; ret true) st))) = true.
Proof.
  intros Hf H Hget. unfold bind at 1. unfold mutate, modify.
  rewrite after_save_tasks. cbn. apply keyed_set; [assumption|].
  rewrite Hf. eapply keyed_lookup; eassumption.
Qed.

(** Every call keeps each task under the text form of its own id. *)
Lemma step_keyed (o : op) st :
  keyed (tasks st) = true -> keyed (tasks (step o st)) = true.
Proof.
  intro H. destruct o as [|desc|i new|i|i|i]; cbn [step].
  - now apply load_tasks_keyed.
  - now apply add_task_keyed.
  - destruct (dict_get (py_str i) (tasks st)) as [t|] eqn:E.
    + rewrite (update_task_found _ _ _ _ E). now apply mutate_keyed.
    + destruct (not_found st i new E) as [-> _]. assumption.
  - unfold delete_task. unfold bind at 1. unfold get_state.
    destruct (dict_mem (py_str i) (tasks st)); [|assumption].
    unfold bind at 1. unfold modify. rewrite after_save_tasks.
    cbn. now apply keyed_del.
  - destruct (dict_get (py_str i) (tasks st)) as [t|] eqn:E.
    + rewrite (mark_in_progress_found _ _ _ E). now apply mutate_keyed.
    + destruct (not_found st i PNone E) as [_ [_ [-> _]]]. assumption.
  - destruct (dict_get (py_str i) (tasks st)) as [t|] eqn:E.
    + rewrite (mark_done_found _ _ _ E). now apply mutate_keyed.
    + destruct (not_found st i PNone E) as [_ [_ [_ ->]]]. assumption.
Qed.

Lemma reachable_keyed st : reachable st -> keyed (tasks st) = true.
Proof.
  induction 1 as [d c n|st o _ IH|st d _ IH].
  - reflexivity.
  - now apply step_keyed.
  - exact IH.
Qed.

Lemma ids_by_key d :
  keyed d = true -> keys d = map py_str (map id (values d)).
Proof.
  intro Hk. apply keyed_spec in Hk as [_ Hk].
  induction d as [|[k t] r IH]; cbn; [reflexivity|].
  f_equal; [apply Hk; now left|].
  apply IH. intros k' t' Hin. apply Hk. now right.
Qed.



Lemma text_ids_store_reachable : reachable text_ids_store.
Proof.
  change text_ids_store
    with (step OpLoad (mkState [] text_ids_file (fun _ => noon) 0)).
  apply reach_step, reach_new.
Qed.

Lemma one_and_true_store_reachable : reachable one_and_true_store.
Proof.
  change one_and_true_store
    with (step OpLoad (mkState [] one_and_true_file (fun _ => noon) 0)).
  apply reach_step, reach_new.
Qed.

Lemma shuffled_reachable : reachable shuffled.
Proof.
  change shuffled with (step OpLoad (mkState [] shuffled_file (fun _ => noon) 0)).
  apply reach_step, reach_new.
Qed.


Lemma held_lookup st i :
  keyed (tasks st) = true ->
  held st i <-> exists t, dict_get (py_str i) (tasks st) = Some t.
Proof. intro Hk. unfold held. symmetry. now apply lookup_held. Qed.


End Reaching.


(* ===================================================================== *)
(** ** The properties of the store (testfile.py)                          *)
(* ===================================================================== *)

Section StoreProperties.

Import testfile.

Implicit Types (st : State) (d : dict Task) (t : Task) (k : string).

Example two_tasks_run :
  (add_task (PStr "buy milk") ;; add_task (PStr "write report") ;; ret tt)
    empty_store = Return tt two_tasks.
Proof. reflexivity. Qed.

(** C10, as the code has it.  For an integer [n] of at most 4300 digits
    the operations that take an id give the same result and the same
    state whether the id is passed as [n] or as its decimal text: each of
    them looks the task up under [str(task_id)], and within the limit
    [str(n)] returns that text, so the call with the limit taken into
    account is the plain call. *)
Theorem id_as_integer_or_text_within_limit st (n : Z) (new : pyval) :
  within_str_limit n = true ->
  let i := PInt n in
  let s := PStr (str_of_int n) in
  (with_str_limit s (get_task s) st = with_str_limit i (get_task i) st
   /\ with_str_limit s (update_task s new) st
      = with_str_limit i (update_task i new) st
   /\ with_str_limit s (delete_task s) st = with_str_limit i (delete_task i) st
   /\ with_str_limit s (mark_in_progress s) st
      = with_str_limit i (mark_in_progress i) st
   /\ with_str_limit s (mark_done s) st = with_str_limit i (mark_done i) st)
  /\ (with_str_limit i (get_task i) st
      = Return (dict_get (str_of_int n) (tasks st)) st
      /\ with_str_limit i (update_task i new) st = update_task i new st
      /\ with_str_limit i (delete_task i) st = delete_task i st
      /\ with_str_limit i (mark_in_progress i) st = mark_in_progress i st
      /\ with_str_limit i (mark_done i) st = mark_done i st).
Proof.
  intros Hn i s. unfold with_str_limit, i, s. cbn [str_builtin].
  rewrite Hn. repeat split.
Qed.

Lemma id_as_integer_or_text_within_limit_witness :
  with_str_limit (PStr "2") (get_task (PStr "2")) two_tasks
  = with_str_limit (PInt 2) (get_task (PInt 2)) two_tasks
  /\ with_str_limit (PInt 2) (get_task (PInt 2)) two_tasks
     = Return (Some report) two_tasks.
Proof.
  assert (within_str_limit 2 = true) as H by (vm_compute; reflexivity).
  destruct (id_as_integer_or_text_within_limit two_tasks 2 PNone H)
    as [[Hsame _] [Hplain _]].
  split; [exact Hsame | exact Hplain].
Defined.

(** C10, as the claim states it, fails: for the integer 10^4300, of 4301
    digits, [str] raises ValueError, so [get_task] given the integer
    raises, while given the decimal text of the same integer it returns
    None. *)
Lemma id_beyond_limit_raises_as_integer :
  with_str_limit (PInt beyond_limit) (get_task (PInt beyond_limit)) empty_store
  = Raise ValueError empty_store
  /\ with_str_limit (PStr (str_of_int beyond_limit))
       (get_task (PStr (str_of_int beyond_limit))) empty_store
     = Return None empty_store.
Proof.
  assert (within_str_limit beyond_limit = false) as H
    by (vm_compute; reflexivity).
  unfold with_str_limit. cbn [str_builtin]. rewrite H.
  split; reflexivity.
Qed.




End StoreProperties.

Section Persistence.

Import testfile.

Implicit Types (st : State) (d : dict Task) (t : Task) (k : string).


Lemma reads_keep_state st i (s : status_val) :
  get_task i st = Return (dict_get (py_str i) (tasks st)) st
  /\ state_of (get_all_tasks st) = st
  /\ state_of (get_tasks_by_status s st) = st.
Proof.
  split; [reflexivity|]. split.
  - unfold get_all_tasks, bind, get_state.
    now destruct (sorted id (values (tasks st))).
  - unfold get_tasks_by_status, bind, get_state.
    destruct (coerce_status s) as [e|e]; cbn; [|reflexivity].
    now destruct (sorted id _).
Qed.





End Persistence.

Section Identifiers.

Import testfile.

Implicit Types (st : State) (d : dict Task) (t : Task) (k : string).














(** Beside a status that is not a member, [add_task] raises from
    [save_tasks] with the new task already in the dictionary, and a
    second call goes on from there; the file is not written. *)
Example add_beside_odd_status :
  exists a b st1 st2,
    add_task (PStr "call home") odd_status_store = Raise AttributeError st1
    /\ add_task (PStr "pay rent") st1 = Raise AttributeError st2
    /\ tasks st2 = tasks odd_status_store ++ [("3", a); ("4", b)]
    /\ description a = PStr "call home" /\ description b = PStr "pay rent"
    /\ get_task (PInt 3) st2 = Return (Some a) st2
    /\ get_task (PInt 4) st2 = Return (Some b) st2
    /\ disk st2 = odd_status_file.
Proof. do 4 eexists. repeat split. Qed.




End Identifiers.

Section Reuse.

Import testfile.

Implicit Types (st : State) (d : dict Task) (t : Task) (k : string).




End Reuse.

Section Listing.

Import testfile.

Implicit Types (st : State) (d : dict Task) (t : Task) (k : string).

Lemma keys_by_id d :
  keyed d = true -> numbered d = true ->
  keys d = map str_of_int (map (zkey id) (values d)).
Proof.
  intros Hk Hn. apply keyed_spec in Hk as [_ Hk].
  induction d as [|[k t] r IH]; cbn; [reflexivity|].
  f_equal.
  - rewrite (Hk k t) by now left.
    rewrite (numbered_id ((k, t) :: r) k t Hn) at 1 by now left. reflexivity.
  - cbn in Hn. apply andb_true_iff in Hn as [_ Hn]. apply IH; [|assumption].
    intros k' t' Hin. apply Hk. now right.
Qed.

Lemma ids_distinct d :
  keyed d = true -> numbered d = true -> NoDup (map (zkey id) (values d)).
Proof.
  intros Hk Hn. apply (NoDup_map_inv str_of_int).
  rewrite <- keys_by_id by assumption.
  now apply keyed_spec in Hk as [Hnd _].
Qed.

Lemma values_int_keys d : numbered d = true -> int_keys id (values d).
Proof.
  unfold numbered, int_keys, values. rewrite forallb_forall, Forall_forall.
  intros H t Hin. apply in_map_iff in Hin as [[k t'] [<- Hin]].
  exact (H _ Hin).
Qed.

Lemma sorted_id_lt (l : list Task) :
  int_keys id l -> StronglySorted (key_lt id) l -> StronglySorted id_lt l.
Proof.
  induction l as [|a r IH]; intros Hi Hs; [constructor|].
  inversion Hi as [|? ? Ha Hr]; subst.
  apply StronglySorted_inv in Hs as [Hsr Hall].
  constructor; [auto|].
  rewrite Forall_forall in *. intros b Hb.
  specialize (Hall b Hb). specialize (Hr b Hb).
  unfold key_lt, zkey in Hall. unfold id_lt.
  destruct (id a), (id b); try discriminate. exact Hall.
Qed.

Lemma status_eq_member (s : status_val) (m : TaskStatus) :
  status_eq s (Member m) = true <-> s = Member m.
Proof.
  destruct s as [x|v]; cbn; [|split; discriminate].
  destruct x, m; cbn; split; congruence.
Qed.

Lemma coerce_status_value (m : TaskStatus) :
  coerce_status (Plain (PStr (value m))) = Ok (Member m).
Proof. now destruct m. Qed.

(** C6, as the code has it.  In every state the tracker reaches in
    which the ids are integers, [get_all_tasks] returns the held tasks in
    strictly ascending order of id, whatever the order in which the
    dictionary holds them, and [get_tasks_by_status], given one of the
    three status names (or the member itself), returns exactly the held
    tasks with that status, in ascending order of id as well. *)
Theorem listings_ascending_by_integer_id st :
  reachable st -> numbered (tasks st) = true ->
  exists all,
    get_all_tasks st = Return all st
    /\ Permutation (values (tasks st)) all
    /\ StronglySorted id_lt all
    /\ (forall st2, Permutation (tasks st) (tasks st2) ->
                    get_all_tasks st2 = Return all st2)
    /\ (forall m, exists sel,
          get_tasks_by_status (Plain (PStr (value m))) st = Return sel st
          /\ get_tasks_by_status (Member m) st = Return sel st
          /\ (forall t, In t sel <->
                        In t (values (tasks st)) /\ status t = Member m)
          /\ StronglySorted id_lt sel
          /\ sel = filter (fun t => status_eq (status t) (Member m)) all).
Proof.
  intros Hr Hn. pose proof (reachable_keyed _ Hr) as Hk.
  pose proof (values_int_keys _ Hn) as Hi.
  pose proof (ids_distinct _ Hk Hn) as Hnd.
  destruct (sorted_spec id _ Hi Hnd) as [all [E [Hp Hs]]].
  assert (int_keys id all) as Hia by (eapply Permutation_Forall; eassumption).
  exists all. split; [|split; [assumption|split; [|split]]].
  - unfold get_all_tasks, bind, get_state. now rewrite E.
  - now apply sorted_id_lt.
  - intros st2 Hp2. unfold get_all_tasks, bind, get_state.
    assert (Permutation (values (tasks st)) (values (tasks st2))) as Hpv
      by (apply Permutation_map; assumption).
    rewrite <- (sorted_perm_eq id _ _ Hi Hnd Hpv). now rewrite E.
  - intro m.
    set (p := fun t => status_eq (status t) (Member m)).
    pose proof (sorted_filter id p _ _ Hi Hnd E) as Ef.
    exists (filter p all).
    split; [|split; [|split; [|split]]].
    + unfold get_tasks_by_status. unfold bind at 1.
      rewrite coerce_status_value. cbn [lift ret].
      unfold bind, get_state. fold p. now rewrite Ef.
    + unfold get_tasks_by_status, bind, get_state. cbn [coerce_status lift ret].
      fold p. now rewrite Ef.
    + intro t. rewrite filter_In. unfold p. rewrite status_eq_member.
      split; intros [Hin Hst]; (split; [|assumption]).
      * eapply Permutation_in; [apply Permutation_sym; exact Hp | assumption].
      * eapply Permutation_in; eassumption.
    + apply sorted_id_lt.
      * unfold int_keys in *. rewrite Forall_forall in *.
        intros t Hin. apply filter_In in Hin as [Hin _]. auto.
      * now apply strictly_sorted_filter.
    + reflexivity.
Qed.

Lemma listings_ascending_by_integer_id_witness :
  tasks shuffled = [("3", rent); ("1", milk); ("2", report_done)]
  /\ get_all_tasks shuffled = Return [milk; report_done; rent] shuffled
  /\ get_tasks_by_status (Plain (PStr "done")) shuffled
     = Return [report_done; rent] shuffled.
Proof.
  destruct (listings_ascending_by_integer_id shuffled shuffled_reachable
              eq_refl) as [all [E [_ [_ [_ Hsel]]]]].
  destruct (Hsel DONE) as [sel [Es [_ [_ [_ Ef]]]]].
  assert (all = [milk; report_done; rent]) as Hall.
  { assert (get_all_tasks shuffled = Return [milk; report_done; rent] shuffled)
      as E' by reflexivity.
    rewrite E in E'. now injection E' as ->. }
  split; [reflexivity|]. split.
  - rewrite E, Hall. reflexivity.
  - change (Plain (PStr "done")) with (Plain (PStr (value DONE))).
    rewrite Es, Ef, Hall. reflexivity.
Defined.

(** C6, as the claim states it, fails: the tracker built on a file whose
    ids are the texts 9 and 10 lists task 10 before task 9, in the order
    of text, although 9 is below 10 as a number. *)
Lemma text_ids_listed_in_text_order :
  TaskTracker__init__ (mkState [] text_ids_file (fun _ => noon) 0)
  = Return tt text_ids_store
  /\ reachable text_ids_store
  /\ get_all_tasks text_ids_store
     = Return [text_task "10"; text_task "9"] text_ids_store
  /\ py_int "9" = Some 9 /\ py_int "10" = Some 10.
Proof.
  split; [reflexivity|]. split; [exact text_ids_store_reachable|].
  repeat split.
Qed.

End Listing.

Section Reachable.

Import testfile.

Implicit Types (st : State) (d : dict Task) (t : Task) (k : string).

Lemma py_eq_same_type (u v : pyval) :
  type_of u = type_of v -> py_eq u v = true -> u = v.
Proof.
  destruct u as [|a|m|x], v as [|b|n|y]; cbn; try discriminate; intros _ H.
  - reflexivity.
  - now apply Bool.eqb_prop in H as ->.
  - now apply Z.eqb_eq in H as ->.
  - now apply String.eqb_eq in H as ->.
Qed.

Lemma texts_of_ids_distinct st :
  reachable st -> NoDup (map (fun t => py_str (id t)) (values (tasks st))).
Proof.
  intro Hr. apply reachable_keyed in Hr.
  rewrite <- (map_map id py_str), <- ids_by_key by assumption.
  now apply keyed_spec in Hr as [Hnd _].
Qed.

(** C9, as the code has it.  In every state a tracker can reach, by
    loading any file and by any calls of add, update, delete,
    mark-in-progress and mark-done, no two tasks held have ids with the
    same text form: the store files each task under [str] of its id.  So
    no two tasks held have the same id, and two ids held that Python
    compares equal are of different types. *)
Theorem ids_unique_by_text_when_reachable st :
  reachable st ->
  NoDup (map (fun t => py_str (id t)) (values (tasks st)))
  /\ NoDup (map id (values (tasks st)))
  /\ (forall i j a b,
        i <> j ->
        nth_error (values (tasks st)) i = Some a ->
        nth_error (values (tasks st)) j = Some b ->
        py_str (id a) <> py_str (id b)
        /\ (type_of (id a) = type_of (id b) -> py_eq (id a) (id b) = false)).
Proof.
  intro Hr. pose proof (texts_of_ids_distinct st Hr) as Hnd.
  split; [exact Hnd|]. split.
  - apply (NoDup_map_inv py_str). now rewrite map_map.
  - intros i j a b Hij Ha Hb.
    assert (py_str (id a) <> py_str (id b)) as Hne.
    { intro E. apply Hij.
      rewrite NoDup_nth_error in Hnd. apply Hnd.
      - rewrite length_map. apply nth_error_Some. now rewrite Ha.
      - rewrite !nth_error_map, Ha, Hb. cbn. now rewrite E. }
    split; [exact Hne|].
    intro Ht. destruct (py_eq (id a) (id b)) eqn:E; [|reflexivity].
    elim Hne. now rewrite (py_eq_same_type _ _ Ht E).
Qed.

Lemma ids_unique_by_text_when_reachable_witness :
  values (tasks (step (OpAdd (PStr "call home")) shuffled))
  = [rent; milk; report_done;
     mkTask (PInt 4) (PStr "call home") (Member TODO)
            (PStr "2025-12-01T12:00:00")]
  /\ NoDup [PInt 3; PInt 1; PInt 2; PInt 4]
  /\ py_eq (id rent) (PInt 4) = false.
Proof.
  destruct (ids_unique_by_text_when_reachable
              (step (OpAdd (PStr "call home")) shuffled)
              (reach_step _ _ shuffled_reachable)) as [_ [Hnd Hpair]].
  split; [reflexivity|]. split; [exact Hnd|].
  refine (proj2 (Hpair 0%nat 3%nat rent _ _ eq_refl eq_refl) eq_refl).
  discriminate.
Defined.

(** C9, as the claim states it, fails: the tracker built on a file whose
    records have the ids 1 and true holds both tasks, under the keys 1
    and True, although the two ids are equal in Python. *)
Lemma one_and_true_both_held :
  TaskTracker__init__ (mkState [] one_and_true_file (fun _ => noon) 0)
  = Return tt one_and_true_store
  /\ reachable one_and_true_store
  /\ keys (tasks one_and_true_store) = ["1"; "True"]
  /\ map id (values (tasks one_and_true_store)) = [PInt 1; PBool true]
  /\ py_eq (PInt 1) (PBool true) = true.
Proof.
  split; [reflexivity|]. split; [exact one_and_true_store_reachable|].
  repeat split.
Qed.

End Reachable.

Section Loading.

Import testfile.

Implicit Types (st : State) (d : dict Task) (t : Task) (k : string).

Lemma unknown_status_text (s : string) :
  s <> "todo" -> s <> "in-progress" -> s <> "done" ->
  TaskStatus_of_value s = Err ValueError.
Proof.
  intros H1 H2 H3. unfold TaskStatus_of_value.
  apply String.eqb_neq in H1, H2, H3. now rewrite H1, H2, H3.
Qed.

Lemma todo_only_from_text (sv : pyval) :
  coerce_status (Plain sv) = Ok (Member TODO) -> sv = PStr "todo".
Proof.
  destruct sv as [|b|n|s]; cbn; try discriminate.
  unfold TaskStatus_of_value.
  destruct (String.eqb_spec s "todo") as [->|_]; [reflexivity|].
  destruct (String.eqb s "in-progress"); [discriminate|].
  destruct (String.eqb s "done"); discriminate.
Qed.

(** A record whose status text is not a status name makes the loop body
    raise before the tracker is touched. *)
Lemma load_entry_unknown_status (fields : jrecord) (s : string) st :
  dict_get "status" fields = Some (PStr s) ->
  TaskStatus_of_value s = Err ValueError ->
  exists e, load_entry (JRecord fields) st = Raise e st.
Proof.
  intros Hs Hv.
  unfold load_entry, Task__init__, bind, lift, ret, raise, subscript.
  rewrite Hs.
  destruct (dict_get "id" fields); [|eauto].
  destruct (dict_get "description" fields); [|eauto].
  destruct (dict_get "created_at" fields); [|eauto].
  cbn [coerce_status]. rewrite Hv. eauto.
Qed.

Lemma for_each_load_unknown_status (items : dict jentry) key fields s :
  In (key, JRecord fields) items ->
  dict_get "status" fields = Some (PStr s) ->
  TaskStatus_of_value s = Err ValueError ->
  forall st, exists e st',
    for_each items (fun item => load_entry (snd item)) st = Raise e st'.
Proof.
  intros Hin Hs Hv.
  induction items as [|[key' e'] r IH]; intro st; [destruct Hin|].
  cbn [for_each snd]. unfold bind.
  destruct Hin as [E|Hin].
  - injection E as -> ->.
    destruct (load_entry_unknown_status fields s st Hs Hv) as [e ->]. eauto.
  - destruct (load_entry e' st) as [[] s1|e s1]; [|eauto].
    apply IH, Hin.
Qed.

(** Where the status of a task in the store comes from after one turn of
    the loop. *)
Lemma load_entry_status (e : jentry) st k t :
  In (k, t) (tasks (state_of (load_entry e st))) ->
  In (k, t) (tasks st)
  \/ exists fields sv, e = JRecord fields
                       /\ dict_get "status" fields = Some sv
                       /\ coerce_status (Plain sv) = Ok (status t).
Proof.
  unfold load_entry, Task__init__, bind, lift, ret, raise, now, modify.
  destruct (subscript e "id"); [|now left].
  destruct (subscript e "description"); [|now left].
  destruct (subscript e "status") as [sv|] eqn:Es; [|now left].
  destruct (subscript e "created_at") as [c|]; [|now left].
  destruct (coerce_status (Plain sv)) as [s'|] eqn:Ec; [|now left].
  assert (exists fields, e = JRecord fields
                         /\ dict_get "status" fields = Some sv) as Hrec.
  { destruct e as [fields|v]; [|discriminate]. exists fields. split; [reflexivity|].
    cbn in Es. destruct (dict_get "status" fields); congruence. }
  destruct Hrec as [fields [-> Hget]].
  destruct (truthy c); cbn; intro Hin;
    (apply In_dict_set in Hin as [E|Hin]; [|now left]);
    right; exists fields, sv; injection E as _ ->; auto.
Qed.

Lemma for_each_load_status (items : dict jentry) :
  forall st k t,
    In (k, t) (tasks (state_of
                        (for_each items (fun item => load_entry (snd item)) st))) ->
    In (k, t) (tasks st)
    \/ exists key fields sv,
         In (key, JRecord fields) items
         /\ dict_get "status" fields = Some sv
         /\ coerce_status (Plain sv) = Ok (status t).
Proof.
  induction items as [|[key e] r IH]; intros st k t; cbn [for_each snd].
  - now left.
  - unfold bind.
    destruct (load_entry e st) as [[] s1|x s1] eqn:E.
    + intro Hin. destruct (IH s1 k t Hin) as [H1|[key' [fields [sv [H1 H2]]]]].
      * assert (s1 = state_of (load_entry e st)) as Hs1 by now rewrite E.
        rewrite Hs1 in H1.
        destruct (load_entry_status e st k t H1)
          as [H0|[fields [sv [-> [Hg Hc]]]]]; [now left|].
        right. exists key, fields, sv. split; [now left | auto].
      * right. exists key', fields, sv. split; [now right | auto].
    + cbn [state_of]. intro Hin.
      assert (s1 = state_of (load_entry e st)) as Hs1 by now rewrite E.
      rewrite Hs1 in Hin.
      destruct (load_entry_status e st k t Hin)
        as [H0|[fields [sv [-> [Hg Hc]]]]]; [now left|].
      right. exists key, fields, sv. split; [now left | auto].
Qed.

(** C3. When the backing file parses as a mapping and some record in it
    has a status text other than "todo", "in-progress" and "done", loading
    raises, both as the method and in the constructor.  And whatever the
    file, a task that loading puts in the store has status Todo only if
    its record says "todo": no status is filled in by default. *)
Theorem unknown_status_fails_load st (items : dict jentry) :
  disk st = Json (JMapping items) ->
  (forall key fields s,
      In (key, JRecord fields) items ->
      dict_get "status" fields = Some (PStr s) ->
      s <> "todo" -> s <> "in-progress" -> s <> "done" ->
      (exists e st', load_tasks st = Raise e st')
      /\ (exists e st', TaskTracker__init__ st = Raise e st'))
  /\ (forall k t,
        In (k, t) (tasks (state_of (load_tasks st))) ->
        status t = Member TODO ->
        In (k, t) (tasks st)
        \/ exists key fields,
             In (key, JRecord fields) items
             /\ dict_get "status" fields = Some (PStr "todo")).
Proof.
  intro Hdisk. split.
  - intros key fields s Hin Hs H1 H2 H3.
    pose proof (unknown_status_text s H1 H2 H3) as Hv.
    split.
    + unfold load_tasks. unfold bind at 1. unfold get_state. rewrite Hdisk.
      eapply for_each_load_unknown_status; eassumption.
    + unfold TaskTracker__init__, load_tasks. unfold bind at 1 2.
      unfold modify, get_state. cbn [disk set_tasks]. rewrite Hdisk.
      eapply for_each_load_unknown_status; eassumption.
  - intros k t. unfold load_tasks. unfold bind at 1. unfold get_state.
    rewrite Hdisk. intros Hin Hst.
    destruct (for_each_load_status items st k t Hin)
      as [H0|[key [fields [sv [H1 [H2 H3]]]]]]; [now left|].
    right. exists key, fields. split; [assumption|].
    rewrite Hst in H3. apply todo_only_from_text in H3. now subst.
Qed.

Lemma unknown_status_fails_load_witness :
  exists e st', load_tasks stale_store = Raise e st'.
Proof.
  destruct (unknown_status_fails_load stale_store _ eq_refl) as [Hfail _].
  refine (proj1 (Hfail "1" _ "finished" (or_introl eq_refl) eq_refl _ _ _));
    discriminate.
Defined.

End Loading.

Section RoundTrip.

Import testfile.

Implicit Types (st : State) (d : dict Task) (t : Task) (k : string).

(** Reading back a record that [to_dict] wrote rebuilds the task and
    files it under the text form of its id, without reading the clock. *)
Lemma load_entry_record_of t st :
  is_member (status t) = true -> truthy (created_at t) = true ->
  load_entry (JRecord (record_of t)) st
  = Return tt (set_tasks (dict_set (py_str (id t)) t) st).
Proof.
  destruct t as [i dsc s c]. cbn [status created_at id].
  intros Hm Hc. destruct s as [m|v]; [|discriminate].
  unfold record_of, to_dict, load_entry, Task__init__, bind, lift, ret, modify.
  destruct m; cbn; rewrite Hc; reflexivity.
Qed.

Lemma for_each_load_closed d :
  forall st,
    NoDup (keys (tasks st) ++ keys d) ->
    forallb (fun kt => String.eqb (fst kt) (py_str (id (snd kt)))) d = true ->
    enumerated d = true -> stamped d = true ->
    for_each (map (fun item : string * jrecord => (fst item, JRecord (snd item)))
                  (map (fun kt => (fst kt, record_of (snd kt))) d))
             (fun item => load_entry (snd item)) st
    = Return tt (set_tasks (fun ts => ts ++ d) st).
Proof.
  induction d as [|[k t] r IH]; intros st Hnd Hk He Hs; cbn [map for_each fst snd].
  - destruct st. unfold ret, set_tasks. cbn. now rewrite app_nil_r.
  - cbn in Hk, He, Hs.
    apply andb_true_iff in Hk as [Hkt Hk].
    apply andb_true_iff in He as [Het He].
    apply andb_true_iff in Hs as [Hst Hs].
    apply String.eqb_eq in Hkt. cbn in Hkt.
    unfold bind. rewrite (load_entry_record_of t st Het Hst).
    assert (dict_get k (tasks st) = None) as Hfresh.
    { apply dict_get_None. intro Hin.
      apply NoDup_remove_2 in Hnd. apply Hnd, in_or_app. now left. }
    rewrite <- Hkt. unfold set_tasks at 1.
    rewrite (dict_set_fresh _ _ _ Hfresh).
    rewrite IH; try assumption.
    + unfold set_tasks. cbn. now rewrite <- app_assoc.
    + cbn [tasks]. unfold keys in *. rewrite map_app, <- app_assoc. exact Hnd.
Qed.

(** The round trip of testfile.py.  When every status in the store is a
    member of the enumeration, [save_tasks] returns, and a tracker built
    afterwards on the same file holds the same tasks: same keys, and for
    each the same id, description, status and creation time, in the same
    order.  Ids need not be integers for this. *)
Lemma save_then_fresh_load st :
  keyed (tasks st) = true -> stamped (tasks st) = true ->
  enumerated (tasks st) = true ->
  exists st1,
    save_tasks st = Return tt st1
    /\ tasks st1 = tasks st
    /\ forall other c n,
         TaskTracker__init__ (mkState other (disk st1) c n)
         = Return tt (mkState (tasks st) (disk st1) c n).
Proof.
  intros Hk Hs He. pose proof Hk as Hk'.
  unfold keyed in Hk'. apply andb_true_iff in Hk' as [Hd Hkey].
  apply distinct_NoDup in Hd.
  pose proof (dump_data_closed _ Hd He) as Ed.
  exists (set_disk (json_document
                      (map (fun kt => (fst kt, record_of (snd kt))) (tasks st)))
                   st).
  split; [now apply save_tasks_ok|]. split; [reflexivity|].
  intros other c n.
  unfold TaskTracker__init__, load_tasks. unfold bind at 1 2.
  unfold modify, get_state. cbn [disk set_tasks set_disk json_document].
  rewrite for_each_load_closed; try assumption; reflexivity.
Qed.

(** After a save, the saved state itself is what a fresh tracker gets. *)
Example two_tasks_round_trip :
  save_tasks two_tasks = Return tt two_tasks
  /\ TaskTracker__init__ two_tasks = Return tt two_tasks.
Proof. split; reflexivity. Qed.

(** The hypothesis on the statuses is needed: a status of another type,
    which [Task.__init__] lets through, makes [save_tasks] raise. *)
Example plain_status_blocks_save :
  let file := Json (JMapping
                [("1", JRecord [("id", PInt 1); ("description", PStr "buy milk");
                                ("status", PInt 5);
                                ("created_at", PStr "2025-12-01T12:00:00")])]) in
  exists st, TaskTracker__init__ (mkState [] file (fun _ => noon) 0) = Return tt st
             /\ save_tasks st = Raise AttributeError st.
Proof. eexists. split; reflexivity. Qed.

(** So is the hypothesis on the ids: ids that are text are listed in the
    order of text, and an id that is not a number in decimal stops
    [add_task] at [int(task_id)]. *)
Example text_ids_sort_as_text :
  let entry i := JRecord [("id", PStr i); ("description", PStr "x");
                        ("status", PStr "todo");
                        ("created_at", PStr "2025-12-01T12:00:00")] in
  let file := Json (JMapping [("9", entry "9"); ("10", entry "10")]) in
  exists st l,
    TaskTracker__init__ (mkState [] file (fun _ => noon) 0) = Return tt st
    /\ get_all_tasks st = Return l st
    /\ map id l = [PStr "10"; PStr "9"].
Proof. do 2 eexists. repeat split. Qed.

Example text_id_blocks_add :
  let file := Json (JMapping
                [("a", JRecord [("id", PStr "a"); ("description", PStr "x");
                                ("status", PStr "todo");
                                ("created_at", PStr "2025-12-01T12:00:00")])]) in
  exists st,
    TaskTracker__init__ (mkState [] file (fun _ => noon) 0) = Return tt st
    /\ add_task (PStr "y") st = Raise ValueError st.
Proof. eexists. split; reflexivity. Qed.

(** A tracker built where no file exists is empty, which is a store of
    the data model. *)
Example built_without_file (other : dict Task) (c : nat -> datetime) (n : nat) :
  TaskTracker__init__ (mkState other Absent c n) = Return tt (mkState [] Absent c n).
Proof. reflexivity. Qed.

(** A store of the data model stays one under every mutating call. *)
Lemma well_formed_kept (o : op) st :
  o <> OpLoad -> well_formed (tasks st) = true ->
  well_formed (tasks (step o st)) = true.
Proof.
  intros Ho Hwf. pose proof (step_keyed o st) as Hkeyed.
  pose proof Hwf as Hwf'.
  apply well_formed_spec in Hwf' as [Hk [Hs [He Hn]]].
  specialize (Hkeyed Hk).
  destruct o as [|desc|i new|i|i|i]; cbn [step] in *; [now elim Ho| | | | |].
  - destruct (add_task_ok st desc Hwf) as [n [t [st' [E [_ [_ [_ [_ [_ [_ H]]]]]]]]]].
    now rewrite E.
  - destruct (dict_get (py_str i) (tasks st)) as [t|] eqn:Eg.
    + rewrite (update_task_found _ _ _ _ Eg) in *.
      pose proof (forallb_lookup _ _ _ _ He Eg) as Hm.
      pose proof (forallb_lookup _ _ _ _ Hs Eg) as Hc.
      pose proof (forallb_lookup _ _ _ _ Hn Eg) as Hi. cbn in Hm, Hc, Hi.
      destruct (mutate_then_save st i
                  (fun t => Task_update_description t new) t He Hm)
        as [st' [E [_ [Et _]]]].
      rewrite E in *. cbn [state_of] in *. apply well_formed_spec.
      split; [exact Hkeyed|]. rewrite Et. repeat split;
        [now apply stamped_set | now apply enumerated_set
         | now apply numbered_set].
    + destruct (not_found st i new Eg) as [-> _]. assumption.
  - destruct (dict_get (py_str i) (tasks st)) as [t|] eqn:Eg.
    + destruct (delete_task_found st i t Eg He) as [st' [E [_ [Et _]]]].
      rewrite E in *. cbn [state_of] in *. apply well_formed_spec.
      split; [exact Hkeyed|]. rewrite Et.
      repeat split; now apply forallb_dict_del.
    + destruct (not_found st i PNone Eg) as [_ [-> _]]. assumption.
  - destruct (dict_get (py_str i) (tasks st)) as [t|] eqn:Eg.
    + rewrite (mark_in_progress_found _ _ _ Eg) in *.
      pose proof (forallb_lookup _ _ _ _ Hs Eg) as Hc.
      pose proof (forallb_lookup _ _ _ _ Hn Eg) as Hi. cbn in Hc, Hi.
      destruct (mutate_then_save st i Task_mark_in_progress t He eq_refl)
        as [st' [E [_ [Et _]]]].
      rewrite E in *. cbn [state_of] in *. apply well_formed_spec.
      split; [exact Hkeyed|]. rewrite Et. repeat split;
        [now apply stamped_set | now apply enumerated_set
         | now apply numbered_set].
    + destruct (not_found st i PNone Eg) as [_ [_ [-> _]]]. assumption.
  - destruct (dict_get (py_str i) (tasks st)) as [t|] eqn:Eg.
    + rewrite (mark_done_found _ _ _ Eg) in *.
      pose proof (forallb_lookup _ _ _ _ Hs Eg) as Hc.
      pose proof (forallb_lookup _ _ _ _ Hn Eg) as Hi. cbn in Hc, Hi.
      destruct (mutate_then_save st i Task_mark_done t He eq_refl)
        as [st' [E [_ [Et _]]]].
      rewrite E in *. cbn [state_of] in *. apply well_formed_spec.
      split; [exact Hkeyed|]. rewrite Et. repeat split;
        [now apply stamped_set | now apply enumerated_set
         | now apply numbered_set].
    + destruct (not_found st i PNone Eg) as [_ [_ [_ ->]]]. assumption.
Qed.

End RoundTrip.

(* ===================================================================== *)
(** ** TaskTracker.py, and the records both files write                   *)
(* ===================================================================== *)

Section Draft.

Lemma draft_dump_data_total (d : dict TaskTracker.Task) :
  forall acc, exists data,
    dict_comprehension d
      (fun item => Ok (py_str (PStr (fst item)),
                       TaskTracker.task_dict (snd item))) acc = Ok data.
Proof.
  induction d as [|[k t] r IH]; intro acc; cbn; [now exists acc | apply IH].
Qed.

Example task1_built :
  TaskTracker.Task__init__ (PInt 1) (PStr "Make Program") (Member TODO) PNone
    (TaskTracker.mkState [] Absent (fun _ => noon) 0)
  = Return (TaskTracker.mkTask (PInt 1) (PStr "Make Program")
                               (PStr "2025-12-01T12:00:00") TODO)
           (TaskTracker.mkState [] Absent (fun _ => noon) 1).
Proof. reflexivity. Qed.

(** The module-level lines of TaskTracker.py, run: the task built by
    [Task(1, "Make Program")], once marked done, serializes to this. *)
Example task1_dict :
  TaskTracker.task_dict task1
  = [("id", PInt 1); ("description", PStr "Make Program");
     ("status", PStr "done"); ("created", PStr "2025-12-01T12:00:00")].
Proof. reflexivity. Qed.

(** C1, on TaskTracker.py.  [save_task] never writes the collection: in
    every state it raises TypeError at [json.dumps(data, f, indent=2)],
    after [open(..., 'w')] has emptied the file; and [load_tasks] raises
    AttributeError at [os.path.exist] before it looks at the file, so a
    tracker built afterwards raises too.  No state survives the round
    trip.  At [draft_store], which holds task 1, the file is left blank. *)
Theorem draft_save_task_loses_tasks :
  (forall st,
      TaskTracker.save_task st = Raise TypeError (TaskTracker.set_disk Blank st))
  /\ (forall st, TaskTracker.load_tasks st = Raise AttributeError st)
  /\ TaskTracker.save_task draft_store
     = Raise TypeError (TaskTracker.mkState [("1", task1)] Blank (fun _ => noon) 1)
  /\ TaskTracker.TaskTracker__init__
       (TaskTracker.mkState [("1", task1)] Blank (fun _ => noon) 1)
     = Raise AttributeError (TaskTracker.mkState [] Blank (fun _ => noon) 1).
Proof.
  split; [|repeat split].
  intro st. unfold TaskTracker.save_task, TaskTracker.dump_data, bind, get_state.
  destruct (draft_dump_data_total (TaskTracker.tasks st) []) as [data ->].
  reflexivity.
Qed.

End Draft.

Section Records.

Lemma is_digit_digit (n : Z) : is_digit (digit n) = true.
Proof.
  unfold digit. pose proof (Z.mod_pos_bound n 10 ltac:(lia)) as Hr.
  remember (n mod 10) as r eqn:Er. clear Er.
  assert (r = 0 \/ r = 1 \/ r = 2 \/ r = 3 \/ r = 4 \/ r = 5 \/ r = 6
          \/ r = 7 \/ r = 8 \/ r = 9) as Hcases by lia.
  repeat (destruct Hcases as [->|Hcases]; [reflexivity|]).
  subst. reflexivity.
Qed.

(** What the clock prints is ISO-8601 text. *)
Lemma isoformat_iso (dt : datetime) : is_iso8601 (isoformat dt) = true.
Proof.
  unfold is_iso8601, isoformat, pad6, pad4, pad2.
  destruct (microsecond dt =? 0); cbn; rewrite !is_digit_digit; reflexivity.
Qed.

Lemma iso_text_truthy (stamp : string) :
  is_iso8601 stamp = true -> truthy (PStr stamp) = true.
Proof. destruct stamp; [discriminate | reflexivity]. Qed.

Lemma value_is_a_status_name (m : TaskStatus) :
  In (value m) ["todo"; "in-progress"; "done"].
Proof. destruct m; cbn; auto. Qed.

(** A task made by [add_task] from a text description is of the data
    model. *)
Lemma added_task_of_data_model st (text : string) :
  testfile.well_formed (testfile.tasks st) = true ->
  exists t st',
    testfile.add_task (PStr text) st = Return t st'
    /\ testfile.of_data_model t = true.
Proof.
  intro Hwf.
  destruct (add_task_ok st (PStr text) Hwf) as [n [t [st' [E [_ [Et _]]]]]].
  exists t, st'. split; [assumption|]. rewrite Et.
  unfold testfile.of_data_model. cbn. apply isoformat_iso.
Qed.

(** C8, as the code has it.  Every record a serializer produces has
    exactly four fields, in this order: id, description, status and the
    creation time, holding the id of the task, its description, the text
    of its status, which is one of the three status names, and its
    creation time.  The creation-time field is named created_at in
    testfile.py and created in TaskTracker.py.  In each file the loop of
    [load_tasks] reads the record under the four names its own serializer
    wrote, and files the task it builds, with the same id, description
    and status, under the text form of its id; the task is the same task
    when its creation time counts as true (one that counts as false is
    replaced by a reading of the clock).  The types are those of the
    task: for a task made by [add_task] from a
    text description the id is a number, the description that text and
    the creation time ISO-8601 text, and so is the creation time a task
    of TaskTracker.py gets when none is passed to the constructor. *)
Theorem serialized_record_fields_of_every_task :
  (forall (t : testfile.Task) (r : jrecord),
      testfile.to_dict t = Ok r ->
      exists m,
        testfile.status t = Member m
        /\ r = [("id", testfile.id t);
                ("description", testfile.description t);
                ("status", PStr (value m));
                ("created_at", testfile.created_at t)]
        /\ In (value m) ["todo"; "in-progress"; "done"]
        /\ keys r = ["id"; "description"; "status"; "created_at"]
        /\ forall st,
             exists t' st',
               testfile.load_entry (JRecord r) st = Return tt st'
               /\ testfile.tasks st'
                  = dict_set (py_str (testfile.id t)) t' (testfile.tasks st)
               /\ testfile.id t' = testfile.id t
               /\ testfile.description t' = testfile.description t
               /\ testfile.status t' = testfile.status t
               /\ (truthy (testfile.created_at t) = true -> t' = t))
  /\ (forall t : testfile.Task,
        is_member (testfile.status t) = true ->
        exists r, testfile.to_dict t = Ok r)
  /\ (forall t : TaskTracker.Task,
        TaskTracker.task_dict t
        = [("id", TaskTracker.id t);
           ("description", TaskTracker.taskDesc t);
           ("status", PStr (value (TaskTracker.status t)));
           ("created", TaskTracker.createdOn t)]
        /\ In (value (TaskTracker.status t)) ["todo"; "in-progress"; "done"]
        /\ keys (TaskTracker.task_dict t)
           = ["id"; "description"; "status"; "created"]
        /\ forall st,
             exists t' st',
               TaskTracker.load_entry (JRecord (TaskTracker.task_dict t)) st
               = Return tt st'
               /\ TaskTracker.tasks st'
                  = dict_set (py_str (TaskTracker.id t)) t' (TaskTracker.tasks st)
               /\ TaskTracker.id t' = TaskTracker.id t
               /\ TaskTracker.taskDesc t' = TaskTracker.taskDesc t
               /\ TaskTracker.status t' = TaskTracker.status t
               /\ (truthy (TaskTracker.createdOn t) = true -> t' = t))
  /\ (forall st (text : string) t st',
        testfile.add_task (PStr text) st = Return t st' ->
        exists n stamp,
          testfile.to_dict t
          = Ok [("id", PInt n); ("description", PStr text);
                ("status", PStr "todo"); ("created_at", PStr stamp)]
          /\ is_iso8601 stamp = true)
  /\ (forall (i d : pyval) (s : status_val) (st st' : TaskTracker.State) t,
        TaskTracker.Task__init__ i d s PNone st = Return t st' ->
        exists stamp,
          TaskTracker.task_dict t
          = [("id", i); ("description", d);
             ("status", PStr (value (TaskTracker.status t)));
             ("created", PStr stamp)]
          /\ is_iso8601 stamp = true).
Proof.
  split; [|split; [|split; [|split]]].
  - intros [i dsc s c] r. unfold testfile.to_dict.
    cbn [testfile.id testfile.description testfile.status testfile.created_at].
    destruct s as [m|v]; [|discriminate]. intros [= <-].
    exists m. split; [reflexivity|]. split; [reflexivity|].
    split; [apply value_is_a_status_name|]. split; [reflexivity|].
    intro st.
    unfold testfile.load_entry, testfile.Task__init__, bind, lift, ret, modify,
      testfile.now.
    destruct (truthy c) eqn:Ht;
      destruct m; cbn; rewrite Ht; cbn; do 2 eexists;
      (split; [reflexivity|]); repeat split; discriminate.
  - intros t Hm. unfold testfile.to_dict.
    destruct (testfile.status t); [eauto | discriminate].
  - intros [i dsc c m]. split; [reflexivity|].
    split; [apply value_is_a_status_name|]. split; [reflexivity|].
    cbn [TaskTracker.createdOn TaskTracker.id TaskTracker.taskDesc
         TaskTracker.status]. intro st.
    unfold TaskTracker.load_entry, TaskTracker.Task__init__, bind, lift, ret,
      modify, TaskTracker.now.
    destruct (truthy c) eqn:Ht;
      destruct m; cbn; rewrite Ht; cbn; do 2 eexists;
      (split; [reflexivity|]); repeat split; discriminate.
  - intros st text t st' E.
    destruct (add_task_returns _ _ _ _ E) as [n [-> _]].
    exists n, (isoformat (testfile.clock st (testfile.ticks st))).
    split; [reflexivity | apply isoformat_iso].
  - intros i d s st st' t.
    unfold TaskTracker.Task__init__, bind, lift, ret, TaskTracker.now.
    cbn [truthy].
    destruct (TaskTracker.TaskStatus_call s) as [m|e]; [|discriminate].
    cbn. intros [= <- _].
    exists (isoformat (TaskTracker.clock st (TaskTracker.ticks st))).
    split; [reflexivity | apply isoformat_iso].
Qed.

Lemma serialized_record_fields_of_every_task_witness :
  (exists st',
      testfile.load_entry
        (JRecord [("id", PInt 1); ("description", PStr "buy milk");
                  ("status", PStr "todo");
                  ("created_at", PStr "2025-12-01T12:00:00")]) empty_store
      = Return tt st'
      /\ testfile.tasks st' = [("1", milk)])
  /\ (exists n stamp,
        testfile.to_dict
          (testfile.mkTask (PInt 3) (PStr "call home") (Member TODO)
                           (PStr "2025-12-01T12:00:00"))
        = Ok [("id", PInt n); ("description", PStr "call home");
              ("status", PStr "todo"); ("created_at", PStr stamp)]
        /\ is_iso8601 stamp = true)
  /\ exists stamp,
       TaskTracker.task_dict
         (TaskTracker.mkTask (PInt 1) (PStr "Make Program")
                             (PStr "2025-12-01T12:00:00") TODO)
       = [("id", PInt 1); ("description", PStr "Make Program");
          ("status", PStr "todo"); ("created", PStr stamp)]
       /\ is_iso8601 stamp = true.
Proof.
  destruct serialized_record_fields_of_every_task
    as [Hfull [_ [_ [Hadd Hdraft]]]].
  split; [|split].
  - destruct (Hfull milk _ eq_refl) as [m [_ [_ [_ [_ Hload]]]]].
    destruct (Hload empty_store) as [t' [st' [E [Ht [_ [_ [_ Hsame]]]]]]].
    rewrite (Hsame eq_refl) in Ht. exists st'. split; [exact E | exact Ht].
  - exact (Hadd two_tasks "call home" _ _ eq_refl).
  - exact (Hdraft (PInt 1) (PStr "Make Program") (Member TODO)
                  (TaskTracker.mkState [] Absent (fun _ => noon) 0) _ _ eq_refl).
Defined.

(** C8, as the claim states it, fails twice.  On TaskTracker.py the
    record that [task_dict] gives for task 1 has the creation time under
    the name created, and has no field createdAt or created_at.  And in
    testfile.py a task read from a file keeps what the file gave: a
    record whose id is the text a, whose description is the number 3 and
    whose creation time is the text then loads, and serializes again with
    these values, none of them of the type the claim gives. *)
Lemma record_fields_as_claimed_fail :
  (keys (TaskTracker.task_dict task1) = ["id"; "description"; "status"; "created"]
   /\ ~ In "createdAt" (keys (TaskTracker.task_dict task1))
   /\ ~ In "created_at" (keys (TaskTracker.task_dict task1)))
  /\ exists t,
       testfile.load_entry
         (JRecord [("id", PStr "a"); ("description", PInt 3);
                   ("status", PStr "todo"); ("created_at", PStr "then")])
         empty_store
       = Return tt (testfile.mkState [("a", t)] Absent (fun _ => noon) 0)
       /\ testfile.to_dict t
          = Ok [("id", PStr "a"); ("description", PInt 3);
                ("status", PStr "todo"); ("created_at", PStr "then")]
       /\ is_int (PStr "a") = false /\ is_text (PInt 3) = false
       /\ is_iso8601 "then" = false.
Proof.
  split.
  - split; [reflexivity|].
    split; cbn; intros [H|[H|[H|[H|[]]]]]; discriminate H.
  - eexists. split; [reflexivity|]. repeat split.
Qed.

End Records.

(* ===================================================================== *)
(** ** More on the store of testfile.py                                   *)
(* ===================================================================== *)

Section StoreBehaviour.

Import testfile.

Implicit Types (st : State) (d : dict Task) (t : Task) (k : string).



Lemma int_builtin_within (k : string) :
  within_int_limit k = true -> int_builtin k = py_int k.
Proof. unfold int_builtin. now intros ->. Qed.

Lemma int_builtin_refuses (k : string) : py_int k = None -> int_builtin k = None.
Proof. unfold int_builtin. intros ->. now destruct (within_int_limit k). Qed.

(** In any state, a call of [get_next_id] changes nothing and can only
    raise ValueError; and where no key has more than 4300 digits, the
    limit of [int()], the number it returns is above what [int()] makes
    of every key, so its decimal text is not a key of the dictionary.
    The same holds for [next_task_id] of TaskTracker.py. *)
Theorem next_id_is_above_every_key :
  (forall st, state_of (get_next_id st) = st)
  /\ (forall st e st', get_next_id st = Raise e st' -> e = ValueError)
  /\ (forall st n st',
        forallb within_int_limit (keys (tasks st)) = true ->
        get_next_id st = Return n st' ->
        (forall k, In k (keys (tasks st)) ->
                   exists m, int_builtin k = Some m /\ m < n)
        /\ dict_get (str_of_int n) (tasks st) = None)
  /\ (forall (s s' : TaskTracker.State) n,
        forallb within_int_limit (keys (TaskTracker.tasks s)) = true ->
        TaskTracker.next_task_id s = Return n s' ->
        s' = s
        /\ (forall k, In k (keys (TaskTracker.tasks s)) ->
                      exists m, int_builtin k = Some m /\ m < n)
        /\ dict_get (str_of_int n) (TaskTracker.tasks s) = None).
Proof.
  split; [exact get_next_id_state|]. split; [|split].
  - intros st e st'.
    destruct (get_next_id_outcome st) as [->|[n [-> _]]]; [|discriminate].
    now intros [= <- _].
  - intros st n st' Hlim.
    destruct (get_next_id_outcome st) as [->|[n' [-> [Hlt Hfresh]]]];
      [discriminate|].
    intros [= <- _]. split; [|now apply dict_get_None].
    intros k Hin. rewrite forallb_forall in Hlim.
    rewrite (int_builtin_within k (Hlim k Hin)). auto.
  - intros s s' n Hlim. unfold TaskTracker.next_task_id, bind, get_state.
    destruct (TaskTracker.tasks s) as [|kt r] eqn:Et.
    + intros [= <- <-]. repeat split; [intros k []].
    + rewrite <- Et in *.
      destruct (ints_of (keys (TaskTracker.tasks s))) as [[|n0 ns]|e0] eqn:E;
        cbn; try discriminate.
      intros [= <- <-].
      destruct (next_above_keys _ _ _ E) as [Hlt Hfresh].
      split; [reflexivity|]. split; [|now apply dict_get_None].
      intros k Hin. rewrite forallb_forall in Hlim.
      rewrite (int_builtin_within k (Hlim k Hin)). auto.
Qed.

Lemma next_id_is_above_every_key_witness :
  get_next_id shuffled = Return 4 shuffled
  /\ (exists m, int_builtin "3" = Some m /\ m < 4)
  /\ dict_get "4" (tasks shuffled) = None.
Proof.
  destruct next_id_is_above_every_key as [_ [_ [Hfresh _]]].
  destruct (Hfresh shuffled 4 shuffled eq_refl eq_refl) as [Hlt Hnew].
  split; [reflexivity|]. split; [|exact Hnew].
  apply Hlt. left. reflexivity.
Defined.

End StoreBehaviour.

Section StoreComposition.

Import testfile.

Implicit Types (st : State) (d : dict Task) (t : Task) (k : string).

(** In any state, an [add_task] that returns has appended the new task
    at the end of the dictionary, under the text of its integer id, with
    the description given and status Todo; every task held before is
    still there, unchanged and in the same place; and, where no key
    occurred twice, as in every state the tracker reaches, the file holds
    one record per task of the new collection, with the id, description,
    status text and creation time of each. *)
Theorem add_appends_and_keeps_the_rest st desc t st' :
  add_task desc st = Return t st' ->
  exists n,
    id t = PInt n /\ description t = desc /\ status t = Member TODO
    /\ truthy (created_at t) = true
    /\ dict_get (str_of_int n) (tasks st) = None
    /\ tasks st' = tasks st ++ [(str_of_int n, t)]
    /\ (NoDup (keys (tasks st)) -> file_holds (disk st') (tasks st')).
Proof.
  intro E.
  destruct (add_task_returns _ _ _ _ E) as [n [Et [_ [Hfresh [Et' [Hp _]]]]]].
  exists n. rewrite Et. repeat split; try assumption.
  - now apply dict_get_None.
  - now rewrite <- Et.
  - intro Hnd. apply persisted_file_holds; [|assumption].
    rewrite Et'. unfold keys. rewrite map_app. cbn.
    apply NoDup_app; [exact Hnd | repeat constructor; intros [] |].
    intros k Hin [<-|[]]. contradiction.
Qed.

Lemma add_appends_and_keeps_the_rest_witness :
  exists t st',
    add_task (PStr "call home") shuffled = Return t st'
    /\ tasks st' = tasks shuffled ++ [("4", t)]
    /\ file_holds (disk st')
         [("3", rent); ("1", milk); ("2", report_done); ("4", t)].
Proof.
  eexists. eexists. split; [reflexivity|].
  destruct (add_appends_and_keeps_the_rest shuffled (PStr "call home") _ _ eq_refl)
    as [n [Hid [_ [_ [_ [_ [Ht Hf]]]]]]].
  injection Hid as <-. split; [exact Ht|].
  apply Hf. repeat constructor; cbn; intuition discriminate.
Defined.






End StoreComposition.

Section StoreFrame.

Import testfile.

Implicit Types (st : State) (d : dict Task) (t : Task) (k : string).









(** The data model is an invariant of the store.  From a store of the
    data model, any run of add, update, delete, mark-in-progress and
    mark-done calls, with any arguments, ends in a store of the data
    model: integer ids, statuses of the enumeration, each task under the
    text of its id. *)
Theorem data_model_is_invariant (ops : list op) :
  forall st,
    well_formed (tasks st) = true ->
    forallb (fun o => negb (is_load o)) ops = true ->
    well_formed (tasks (steps ops st)) = true.
Proof.
  unfold steps.
  induction ops as [|o r IH]; intros st Hwf Hops; cbn; [assumption|].
  cbn in Hops. apply andb_true_iff in Hops as [Ho Hr].
  apply IH; [|assumption]. apply well_formed_kept; [|assumption].
  intros ->. discriminate.
Qed.

Lemma data_model_is_invariant_witness :
  well_formed
    (tasks (steps [OpAdd (PStr "call home"); OpDelete (PInt 1);
                   OpMarkDone (PStr "3"); OpUpdate (PInt 9) (PStr "x")]
                  two_tasks)) = true.
Proof.
  apply data_model_is_invariant; reflexivity.
Defined.

End StoreFrame.

Section LoadOutcome.

Import testfile.

Implicit Types (st : State) (d : dict Task) (t : Task) (k : string).






End LoadOutcome.

(* ===================================================================== *)
(** ** The command line of testfile.py                                    *)
(* ===================================================================== *)

Section CommandLine.

Import testfile.

Implicit Types (c : Console) (st : State) (t : Task) (args : list string).

Lemma print_outcome (line : string) c :
  print line c = Return tt (mkConsole (tracker c) (stdout c ++ [line])).
Proof. reflexivity. Qed.

Lemma show_help_outcome c :
  show_help c = Return tt (mkConsole (tracker c) (stdout c ++ usage)).
Proof.
  unfold show_help, usage. cbn. unfold bind, print, modify, ret. cbn.
  repeat rewrite <- app_assoc. reflexivity.
Qed.

Lemma on_tracker_return {A} (m : M State A) c (a : A) st :
  m (tracker c) = Return a st ->
  on_tracker m c = Return a (mkConsole st (stdout c)).
Proof. intro H. unfold on_tracker. now rewrite H. Qed.

Lemma on_tracker_raise {A} (m : M State A) c (e : exn) st :
  m (tracker c) = Raise e st ->
  on_tracker m c = Raise e (mkConsole st (stdout c)).
Proof. intro H. unfold on_tracker. now rewrite H. Qed.

(** The handler of [run]: what is printed when a ValueError is caught. *)
Lemma handler_outcome c :
  (print "Invalid arguments" ;; show_help) c
  = Return tt (mkConsole (tracker c)
                         (stdout c ++ "Invalid arguments" :: usage)).
Proof.
  unfold bind. rewrite print_outcome, show_help_outcome. cbn.
  now rewrite <- app_assoc.
Qed.

Lemma invalid_command_outcome c :
  (print "Invalid command" ;; show_help) c
  = Return tt (mkConsole (tracker c)
                         (stdout c ++ "Invalid command" :: usage)).
Proof.
  unfold bind. rewrite print_outcome, show_help_outcome. cbn.
  now rewrite <- app_assoc.
Qed.

Lemma is_id_command_cases (command : string) :
  is_id_command command = true ->
  command = "update" \/ command = "delete"
  \/ command = "mark-in-progress" \/ command = "mark-done".
Proof.
  unfold is_id_command. rewrite !orb_true_iff, !String.eqb_eq. tauto.
Qed.

(** [run] in terms of [dispatch], once there are two arguments or more. *)
Lemma run_dispatch prog command rest c :
  run (prog :: command :: rest) c
  = try_except (dispatch (prog :: command :: rest)) caught_by_run
               (print "Invalid arguments" ;; show_help) c.
Proof. reflexivity. Qed.

Lemma int_arg_outcome (a : string) c :
  int_arg a c = match int_builtin a with
                | Some n => Return (PInt n) c
                | None => Raise ValueError c
                end.
Proof. unfold int_arg. now destruct (int_builtin a). Qed.

(** The try body for a command that takes an id, with its id argument
    present (and, for update, a description too). *)
Lemma dispatch_id_command prog command a rest c :
  is_id_command command = true ->
  (command = "update" -> rest <> []) ->
  dispatch (prog :: command :: a :: rest) c
  = match int_builtin a with
    | Some n =>
        match on_tracker (tracker_call command (PInt n) rest) c with
        | Return b c' =>
            print ("Task " ++ str_of_int n
                   ++ (if b then success_text command else " not found")) c'
        | Raise e c' => Raise e c'
        end
    | None => Raise ValueError c
    end.
Proof.
  intros Hc Hrest. apply is_id_command_cases in Hc.
  destruct Hc as [-> | [-> | [-> | ->]]].
  - destruct rest as [|b rest]; [now elim Hrest|].
    unfold dispatch, tracker_call, success_text, update_command, bind.
    cbn [nth List.length Nat.ltb Nat.leb String.eqb Ascii.eqb Bool.eqb andb skipn].
    rewrite int_arg_outcome. destruct (int_builtin a) as [n|]; [|reflexivity].
    destruct (on_tracker _ c) as [[|] c'|e c']; reflexivity.
  - unfold dispatch, tracker_call, success_text, delete_command, bind.
    cbn [nth List.length Nat.ltb Nat.leb String.eqb Ascii.eqb Bool.eqb andb skipn].
    rewrite int_arg_outcome. destruct (int_builtin a) as [n|]; [|reflexivity].
    destruct (on_tracker _ c) as [[|] c'|e c']; reflexivity.
  - unfold dispatch, tracker_call, success_text, mark_in_progress_command, bind.
    cbn [nth List.length Nat.ltb Nat.leb String.eqb Ascii.eqb Bool.eqb andb skipn].
    rewrite int_arg_outcome. destruct (int_builtin a) as [n|]; [|reflexivity].
    destruct (on_tracker _ c) as [[|] c'|e c']; reflexivity.
  - unfold dispatch, tracker_call, success_text, mark_done_command, bind.
    cbn [nth List.length Nat.ltb Nat.leb String.eqb Ascii.eqb Bool.eqb andb skipn].
    rewrite int_arg_outcome. destruct (int_builtin a) as [n|]; [|reflexivity].
    destruct (on_tracker _ c) as [[|] c'|e c']; reflexivity.
Qed.

(** An id argument that [int()] refuses never reaches the tracker.  For
    update, delete, mark-in-progress and mark-done with their arguments
    present, if the id argument is text that [int()] refuses then [run]
    returns, having printed "Invalid arguments" and the usage, and the
    tracker and the file are as before. *)
Theorem bad_id_is_reported_not_raised c prog command a rest :
  is_id_command command = true ->
  (command = "update" -> rest <> []) ->
  int_builtin a = None ->
  run (prog :: command :: a :: rest) c
  = Return tt (mkConsole (tracker c)
                         (stdout c ++ "Invalid arguments" :: usage)).
Proof.
  intros Hc Hrest Ha. rewrite run_dispatch. unfold try_except.
  rewrite (dispatch_id_command _ _ _ _ _ Hc Hrest), Ha.
  cbn [caught_by_run]. apply handler_outcome.
Qed.

Lemma bad_id_is_reported_not_raised_witness :
  run ["task-cli"; "delete"; "one"] desk
  = Return tt (mkConsole two_tasks ("Invalid arguments" :: usage))
  /\ run ["task-cli"; "mark-done"; String (ascii_of_nat 28) "2"] desk
     = Return tt (mkConsole two_tasks ("Invalid arguments" :: usage)).
Proof.
  split.
  - exact (bad_id_is_reported_not_raised desk "task-cli" "delete" "one" []
             eq_refl ltac:(discriminate) eq_refl).
  - exact (bad_id_is_reported_not_raised desk "task-cli" "mark-done"
             (String (ascii_of_nat 28) "2") []
             eq_refl ltac:(discriminate) eq_refl).
Defined.

End CommandLine.

Section CommandOutcomes.

Import testfile.

Implicit Types (c : Console) (st : State) (t : Task) (args : list string).

Lemma tracker_call_outcome command (i : pyval) (words : list string) st :
  is_id_command command = true ->
  keyed (tasks st) = true -> enumerated (tasks st) = true ->
  exists b st',
    tracker_call command i words st = Return b st'
    /\ (b = true <-> held st i)
    /\ (b = false -> st' = st)
    /\ (b = true -> persisted st').
Proof.
  intros Hc Hk He. apply is_id_command_cases in Hc.
  destruct (dict_get (py_str i) (tasks st)) as [t|] eqn:Hget.
  - assert (held st i) as Hheld by (apply held_lookup; eauto).
    destruct (found_returns_true st i (PStr (String.concat " " words)) t He Hget)
      as [[s1 [E1 P1]] [[s2 [E2 P2]] [[s3 [E3 P3]] [s4 [E4 P4]]]]].
    destruct Hc as [-> | [-> | [-> | ->]]]; cbn [tracker_call String.eqb Ascii.eqb Bool.eqb];
      [exists true, s1 | exists true, s2 | exists true, s3 | exists true, s4];
      (split; [assumption|]); (split; [tauto|]);
      (split; [discriminate | auto]).
  - assert (~ held st i) as Habs.
    { intro Hh. apply held_lookup in Hh as [t Ht]; [congruence | assumption]. }
    destruct (not_found st i (PStr (String.concat " " words)) Hget)
      as [E1 [E2 [E3 E4]]].
    exists false, st.
    destruct Hc as [-> | [-> | [-> | ->]]]; cbn [tracker_call String.eqb Ascii.eqb Bool.eqb];
      (split; [assumption|]); (split; [split; [discriminate | contradiction]|]);
      (split; [reflexivity | discriminate]).
Qed.




(** The try body when the command cannot be used. *)
Lemma dispatch_unusable prog command rest c :
  (is_id_command command = false /\ command <> "add" /\ command <> "list")
  \/ (rest = [] /\ command <> "list")
  \/ (command = "update" /\ (List.length rest <= 1)%nat) ->
  dispatch (prog :: command :: rest) c
  = Return tt (mkConsole (tracker c) (stdout c ++ "Invalid command" :: usage)).
Proof.
  intro H. rewrite <- invalid_command_outcome.
  unfold dispatch. cbn [nth List.length].
  destruct H as [[Hid [Hadd Hlist]] | [[-> Hlist] | [-> Hlen]]].
  - unfold is_id_command in Hid. rewrite !orb_false_iff in Hid.
    destruct Hid as [[[H1 H2] H3] H4].
    apply String.eqb_neq in Hadd, Hlist.
    now rewrite Hadd, H1, H2, H3, H4, Hlist.
  - apply String.eqb_neq in Hlist. cbn [List.length Nat.ltb Nat.leb].
    now rewrite !andb_false_r, Hlist.
  - destruct rest as [|x [|y rest]]; [reflexivity | reflexivity |].
    cbn in Hlen. lia.
Qed.

(** Without a usable command [run] only prints.  With fewer than two
    arguments it prints the usage.  With a command that is none of the six
    names, or with add, delete, mark-in-progress or mark-done and no
    further argument, or with update and fewer than two further arguments
    (whatever the one given is), it prints "Invalid command" and the
    usage.  In each case it returns and the tracker and the file are as
    before. *)
Theorem unusable_command_only_prints c :
  run [] c = Return tt (mkConsole (tracker c) (stdout c ++ usage))
  /\ (forall prog,
        run [prog] c = Return tt (mkConsole (tracker c) (stdout c ++ usage)))
  /\ (forall prog command rest,
        (is_id_command command = false /\ command <> "add" /\ command <> "list")
        \/ (rest = [] /\ command <> "list")
        \/ (command = "update" /\ (List.length rest <= 1)%nat) ->
        run (prog :: command :: rest) c
        = Return tt (mkConsole (tracker c)
                               (stdout c ++ "Invalid command" :: usage))).
Proof.
  split; [apply show_help_outcome|]. split; [intro; apply show_help_outcome|].
  intros prog command rest H. rewrite run_dispatch. unfold try_except.
  now rewrite (dispatch_unusable _ _ _ _ H).
Qed.

Lemma unusable_command_only_prints_witness :
  run ["task-cli"; "update"; "one"] desk
  = Return tt (mkConsole two_tasks ("Invalid command" :: usage)).
Proof.
  destruct (unusable_command_only_prints desk) as [_ [_ H]].
  apply (H "task-cli" "update" ["one"]). right. right. split; [reflexivity|].
  cbn. lia.
Defined.

End CommandOutcomes.

Section Listings.

Import testfile.

Implicit Types (c : Console) (st : State) (t : Task) (args : list string).

Lemma print_tasks_outcome (ts : list Task) :
  forall c,
    Forall (fun t => is_member (status t) = true) ts ->
    print_tasks ts c
    = Return tt (mkConsole (tracker c) (stdout c ++ map line_of ts)).
Proof.
  unfold print_tasks.
  induction ts as [|t r IH]; intros c H; cbn [for_each map].
  - destruct c. unfold ret. cbn. now rewrite app_nil_r.
  - inversion H as [|? ? Ht Hr]; subst.
    unfold bind at 1 2. unfold line_of, Task__str__ in *.
    destruct (status t); [|discriminate]. cbn [lift ret].
    rewrite print_outcome, (IH _ Hr). cbn. now rewrite <- app_assoc.
Qed.

Lemma print_tasks_tracker (ts : list Task) :
  forall c, tracker (state_of (print_tasks ts c)) = tracker c.
Proof.
  unfold print_tasks.
  induction ts as [|t r IH]; intro c; cbn [for_each]; [reflexivity|].
  unfold bind at 1 2. destruct (Task__str__ t); cbn [lift ret raise];
    [|reflexivity].
  rewrite print_outcome. now rewrite IH.
Qed.

Lemma print_listing_outcome (ts : list Task) c :
  Forall (fun t => is_member (status t) = true) ts ->
  match ts with
  | [] => print "No tasks found"
  | _ => print_tasks ts
  end c
  = Return tt (mkConsole (tracker c) (stdout c ++ listing ts)).
Proof.
  intro H. destruct ts as [|t r]; [reflexivity|].
  now apply print_tasks_outcome.
Qed.

(** The listing of all tasks on a store of the data model. *)
Lemma get_all_tasks_ok st :
  well_formed (tasks st) = true ->
  exists all,
    get_all_tasks st = Return all st
    /\ sorted id (values (tasks st)) = Ok all
    /\ Permutation (values (tasks st)) all
    /\ StronglySorted id_lt all
    /\ Forall (fun t => is_member (status t) = true) all.
Proof.
  intro Hwf. apply well_formed_spec in Hwf as [Hk [_ [He Hn]]].
  pose proof (values_int_keys _ Hn) as Hi.
  pose proof (ids_distinct _ Hk Hn) as Hnd.
  destruct (sorted_spec id _ Hi Hnd) as [all [E [Hp Hs]]].
  exists all. split; [|split; [assumption|split; [assumption|split]]].
  - unfold get_all_tasks, bind, get_state. now rewrite E.
  - apply sorted_id_lt; [|assumption]. eapply Permutation_Forall; eassumption.
  - eapply Permutation_Forall; [exact Hp|].
    unfold enumerated in He. rewrite forallb_forall in He.
    apply Forall_forall. intros t Hin.
    unfold values in Hin. apply in_map_iff in Hin as [[k t'] [<- Hin]].
    exact (He _ Hin).
Qed.

Lemma list_all_outcome c (status_arg : pyval) (all : list Task) :
  truthy status_arg = false ->
  get_all_tasks (tracker c) = Return all (tracker c) ->
  Forall (fun t => is_member (status t) = true) all ->
  list_command status_arg c
  = Return tt (mkConsole (tracker c) (stdout c ++ framed "All Tasks:" all)).
Proof.
  intros Hs E Hm. unfold list_command. rewrite Hs.
  unfold bind at 1. rewrite print_outcome.
  set (c1 := mkConsole _ _).
  unfold bind at 1 2.
  rewrite (on_tracker_return get_all_tasks c1 all (tracker c) E).
  unfold bind at 1. rewrite print_outcome. unfold ret at 1.
  unfold bind at 1. rewrite print_outcome.
  unfold bind at 1. rewrite (print_listing_outcome _ _ Hm).
  rewrite print_outcome. cbn [tracker stdout c1]. unfold framed.
  unfold c1. cbn [tracker stdout].
  repeat rewrite <- app_assoc. reflexivity.
Qed.

Lemma list_by_status_outcome c (s : string) (sel : list Task) :
  s <> "" ->
  get_tasks_by_status (Plain (PStr s)) (tracker c) = Return sel (tracker c) ->
  Forall (fun t => is_member (status t) = true) sel ->
  list_command (PStr s) c
  = Return tt (mkConsole (tracker c)
                 (stdout c ++ framed ("Tasks (" ++ s ++ "):") sel)).
Proof.
  intros Hs E Hm. unfold list_command.
  assert (truthy (PStr s) = true) as ->
    by (cbn; apply String.eqb_neq in Hs; now rewrite Hs).
  unfold bind at 1. rewrite print_outcome.
  set (c1 := mkConsole _ _).
  unfold bind at 1 2.
  rewrite (on_tracker_return (get_tasks_by_status (Plain (PStr s))) c1 sel
             (tracker c) E).
  unfold bind at 1. rewrite print_outcome. unfold ret at 1.
  unfold bind at 1. rewrite print_outcome.
  unfold bind at 1. rewrite (print_listing_outcome _ _ Hm).
  rewrite print_outcome. unfold framed.
  unfold c1. cbn [tracker stdout py_str].
  repeat rewrite <- app_assoc. reflexivity.
Qed.

Lemma dispatch_list prog rest c :
  dispatch (prog :: "list" :: rest) c
  = list_command (match rest with s :: _ => PStr s | [] => PNone end) c.
Proof. destruct rest; reflexivity. Qed.



End Listings.

Section ReadOnlyAndAdd.

Import testfile.

Implicit Types (c : Console) (st : State) (t : Task) (args : list string).

Lemma on_tracker_read {A} (m : M State A) c :
  state_of (m (tracker c)) = tracker c ->
  tracker (state_of (on_tracker m c)) = tracker c.
Proof. unfold on_tracker. destruct (m (tracker c)); cbn; auto. Qed.

Lemma list_command_tracker (status_arg : pyval) c :
  tracker (state_of (list_command status_arg c)) = tracker c.
Proof.
  unfold list_command. unfold bind at 1. rewrite print_outcome.
  set (c1 := mkConsole _ _).
  assert (tracker c1 = tracker c) as H1 by reflexivity.
  destruct (reads_keep_state (tracker c1) PNone (Plain status_arg))
    as [_ [Hall Hsel]].
  unfold bind at 1.
  assert (forall (m : M State (list Task)) (title : string),
             state_of (m (tracker c1)) = tracker c1 ->
             match (ts <- on_tracker m ;; print title ;; ret ts) c1 with
             | Return ts c2 => tracker c2 = tracker c
             | Raise e c2 => tracker c2 = tracker c
             end) as Hread.
  { intros m title Hm. unfold bind, on_tracker.
    destruct (m (tracker c1)) as [ts s|e s]; cbn in Hm; subst s; reflexivity. }
  destruct (truthy status_arg).
  - specialize (Hread _ ("Tasks (" ++ py_str status_arg ++ "):")%string Hsel).
    destruct ((ts <- on_tracker _ ;; print _ ;; ret ts) c1) as [ts c2|e c2];
      [|exact Hread].
    unfold bind at 1. rewrite print_outcome. unfold bind at 1.
    set (c3 := mkConsole _ _).
    assert (tracker c3 = tracker c) as H3 by exact Hread.
    assert (forall o : Outcome Console unit,
               tracker (state_of o) = tracker c ->
               tracker (state_of (match o with
                                  | Return _ s' => print (rule ++ newline) s'
                                  | Raise e s' => Raise e s'
                                  end)) = tracker c) as Hlast.
    { intros [[] s'|e s'] Ho; exact Ho. }
    apply Hlast. destruct ts; [exact H3|].
    rewrite print_tasks_tracker. exact H3.
  - specialize (Hread _ "All Tasks:" Hall).
    destruct ((ts <- on_tracker _ ;; print _ ;; ret ts) c1) as [ts c2|e c2];
      [|exact Hread].
    unfold bind at 1. rewrite print_outcome. unfold bind at 1.
    set (c3 := mkConsole _ _).
    assert (tracker c3 = tracker c) as H3 by exact Hread.
    assert (forall o : Outcome Console unit,
               tracker (state_of o) = tracker c ->
               tracker (state_of (match o with
                                  | Return _ s' => print (rule ++ newline) s'
                                  | Raise e s' => Raise e s'
                                  end)) = tracker c) as Hlast.
    { intros [[] s'|e s'] Ho; exact Ho. }
    apply Hlast. destruct ts; [exact H3|].
    rewrite print_tasks_tracker. exact H3.
Qed.

Lemma unknown_status_name (s : string) :
  is_status_name s = false -> TaskStatus_of_value s = Err ValueError.
Proof.
  unfold is_status_name, TaskStatus_of_value.
  destruct (String.eqb s "todo"); [discriminate|].
  destruct (String.eqb s "in-progress"); [discriminate|].
  destruct (String.eqb s "done"); [discriminate | reflexivity].
Qed.

Lemma list_unknown_status_outcome (s : string) c :
  s <> "" -> is_status_name s = false ->
  list_command (PStr s) c
  = Raise ValueError (mkConsole (tracker c) (stdout c ++ [(newline ++ rule)%string])).
Proof.
  intros Hs Hn. unfold list_command.
  assert (truthy (PStr s) = true) as ->
    by (cbn; apply String.eqb_neq in Hs; now rewrite Hs).
  unfold bind at 1. rewrite print_outcome.
  unfold bind, on_tracker, get_tasks_by_status, lift.
  cbn [coerce_status]. rewrite (unknown_status_name s Hn). reflexivity.
Qed.

(** [list] reads only.  In any state and with any arguments after it,
    whether [run] returns or raises, the tracker and the file are as
    before.  And a status that is not empty and not one of the three
    names is reported, not raised: [run] returns having printed the first
    rule, "Invalid arguments" and the usage, and no task. *)
Theorem list_never_changes_the_store c prog rest :
  tracker (state_of (run (prog :: "list" :: rest) c)) = tracker c
  /\ (forall s more,
        rest = s :: more -> s <> "" -> is_status_name s = false ->
        run (prog :: "list" :: rest) c
        = Return tt
            (mkConsole (tracker c)
               (stdout c ++ (newline ++ rule)%string
                            :: "Invalid arguments" :: usage))).
Proof.
  split.
  - rewrite run_dispatch. unfold try_except. rewrite dispatch_list.
    pose proof (list_command_tracker
                  (match rest with s :: _ => PStr s | [] => PNone end) c) as H.
    destruct (list_command _ c) as [[] c'|e c']; cbn [state_of] in *;
      [exact H|].
    destruct (caught_by_run e); [|exact H].
    rewrite handler_outcome. exact H.
  - intros s more -> Hs Hn.
    rewrite run_dispatch. unfold try_except. rewrite dispatch_list.
    rewrite (list_unknown_status_outcome s c Hs Hn). cbn [caught_by_run].
    rewrite handler_outcome. cbn [tracker stdout].
    now rewrite <- app_assoc.
Qed.

Lemma list_never_changes_the_store_witness :
  run ["task-cli"; "list"; "finished"] desk
  = Return tt
      (mkConsole two_tasks
         ((newline ++ rule)%string :: "Invalid arguments" :: usage)).
Proof.
  destruct (list_never_changes_the_store desk "task-cli" ["finished"])
    as [_ H].
  apply (H "finished" []); [reflexivity | discriminate | reflexivity].
Defined.

Lemma dispatch_add prog w ws c :
  dispatch (prog :: "add" :: w :: ws) c
  = add_command (PStr (String.concat " " (w :: ws))) c.
Proof. reflexivity. Qed.





End ReadOnlyAndAdd.

Section EveryInvocation.

Import testfile.

Implicit Types (c : Console) (st : State) (t : Task) (args : list string).

Lemma prints_more_refl c : prints_more c c.
Proof. exists []. now rewrite app_nil_r. Qed.

Lemma prints_more_lines c st (out : list string) :
  prints_more c (mkConsole st (stdout c ++ out)).
Proof. now exists out. Qed.

Lemma tracker_call_well_formed command (i : pyval) (words : list string) st :
  is_id_command command = true ->
  well_formed (tasks st) = true ->
  well_formed (tasks (state_of (tracker_call command i words st))) = true.
Proof.
  intros Hc Hwf. apply is_id_command_cases in Hc.
  destruct Hc as [-> | [-> | [-> | ->]]]; cbn [tracker_call String.eqb Ascii.eqb Bool.eqb].
  - apply (well_formed_kept (OpUpdate i (PStr (String.concat " " words))));
      [discriminate | assumption].
  - apply (well_formed_kept (OpDelete i)); [discriminate | assumption].
  - apply (well_formed_kept (OpMarkInProgress i)); [discriminate | assumption].
  - apply (well_formed_kept (OpMarkDone i)); [discriminate | assumption].
Qed.

Lemma is_status_name_value (s : string) :
  is_status_name s = true -> exists m, s = value m.
Proof.
  unfold is_status_name. rewrite !orb_true_iff, !String.eqb_eq.
  intros [[->| ->]| ->]; [exists TODO | exists IN_PROGRESS | exists DONE];
    reflexivity.
Qed.

Lemma get_by_status_ok st (m : TaskStatus) :
  well_formed (tasks st) = true ->
  exists sel,
    get_tasks_by_status (Plain (PStr (value m))) st = Return sel st
    /\ Forall (fun t => is_member (status t) = true) sel.
Proof.
  intro Hwf. destruct (get_all_tasks_ok _ Hwf) as [all [_ [Es [_ [_ Hm]]]]].
  apply well_formed_spec in Hwf as [Hk [_ [_ Hn]]].
  set (p := fun t => status_eq (status t) (Member m)).
  pose proof (sorted_filter id p _ _ (values_int_keys _ Hn)
                (ids_distinct _ Hk Hn) Es) as Ef.
  exists (filter p all). split.
  - unfold get_tasks_by_status. unfold bind at 1.
    rewrite coerce_status_value. cbn [lift ret].
    unfold bind, get_state. fold p. now rewrite Ef.
  - rewrite Forall_forall in *. intros t Hin.
    apply filter_In in Hin as [Hin _]. auto.
Qed.

Lemma list_command_settles c (rest : list string) :
  well_formed (tasks (tracker c)) = true ->
  settles c (list_command (match rest with s :: _ => PStr s | [] => PNone end) c).
Proof.
  intro Hwf. destruct (get_all_tasks_ok _ Hwf) as [all [E [_ [_ [_ Hm]]]]].
  destruct rest as [|s more].
  - rewrite (list_all_outcome c PNone all eq_refl E Hm).
    split; [assumption | apply prints_more_lines].
  - destruct (String.eqb_spec s "") as [->|Hs].
    + rewrite (list_all_outcome c (PStr "") all eq_refl E Hm).
      split; [assumption | apply prints_more_lines].
    + destruct (is_status_name s) eqn:Hn.
      * apply is_status_name_value in Hn as [m ->].
        destruct (get_by_status_ok _ m Hwf) as [sel [Eg Hsel]].
        rewrite (list_by_status_outcome c (value m) sel Hs Eg Hsel).
        split; [assumption | apply prints_more_lines].
      * rewrite (list_unknown_status_outcome s c Hs Hn).
        split; [reflexivity|]. split; [assumption | apply prints_more_lines].
Qed.

Lemma dispatch_settles prog command rest c :
  well_formed (tasks (tracker c)) = true ->
  settles c (dispatch (prog :: command :: rest) c).
Proof.
  intro Hwf. pose proof Hwf as Hwf'.
  apply well_formed_spec in Hwf' as [Hk [_ [He _]]].
  destruct (is_id_command command) eqn:Hid.
  - assert (command <> "list") as Hnl.
    { apply is_id_command_cases in Hid.
      destruct Hid as [-> | [-> | [-> | ->]]]; discriminate. }
    destruct rest as [|a rest].
    + rewrite dispatch_unusable by (right; left; auto).
      split; [assumption | apply prints_more_lines].
    + destruct (String.eqb_spec command "update") as [Hu|Hu].
      * destruct rest as [|b rest].
        -- rewrite dispatch_unusable by (right; right; split; [assumption | cbn; lia]).
           split; [assumption | apply prints_more_lines].
        -- rewrite dispatch_id_command by (auto; discriminate).
           destruct (int_builtin a) as [n|];
             [|split; [reflexivity|split; [assumption | apply prints_more_refl]]].
           pose proof (tracker_call_well_formed command (PInt n) (b :: rest)
                         (tracker c) Hid Hwf) as Hwf1.
           destruct (tracker_call_outcome command (PInt n) (b :: rest)
                       (tracker c) Hid Hk He) as [r [st' [E _]]].
           rewrite E in Hwf1. rewrite (on_tracker_return _ _ _ _ E).
           rewrite print_outcome. cbn [settles tracker stdout].
           split; [exact Hwf1 | apply prints_more_lines].
      * rewrite dispatch_id_command by (auto; intro; contradiction).
        destruct (int_builtin a) as [n|];
          [|split; [reflexivity|split; [assumption | apply prints_more_refl]]].
        pose proof (tracker_call_well_formed command (PInt n) rest
                      (tracker c) Hid Hwf) as Hwf1.
        destruct (tracker_call_outcome command (PInt n) rest
                    (tracker c) Hid Hk He) as [r [st' [E _]]].
        rewrite E in Hwf1. rewrite (on_tracker_return _ _ _ _ E).
        rewrite print_outcome. cbn [settles tracker stdout].
        split; [exact Hwf1 | apply prints_more_lines].
  - destruct (String.eqb_spec command "add") as [->|Hadd].
    + destruct rest as [|w ws].
      * rewrite dispatch_unusable by (right; left; split; [reflexivity | discriminate]).
        split; [assumption | apply prints_more_lines].
      * rewrite dispatch_add. unfold add_command, bind.
        destruct (add_task_ok (tracker c) (PStr (String.concat " " (w :: ws))) Hwf)
          as [n [t [st' [E [_ [_ [_ [_ [_ [_ Hwf1]]]]]]]]]].
        rewrite (on_tracker_return _ _ _ _ E), print_outcome.
        cbn [settles tracker stdout].
        split; [exact Hwf1 | apply prints_more_lines].
    + destruct (String.eqb_spec command "list") as [->|Hlist].
      * rewrite dispatch_list. now apply list_command_settles.
      * rewrite dispatch_unusable by (left; auto).
        split; [assumption | apply prints_more_lines].
Qed.

(** Every invocation on a store of the data model, with what the induction
    on later uses needs. *)
Lemma run_settles args c :
  well_formed (tasks (tracker c)) = true ->
  exists c',
    run args c = Return tt c'
    /\ well_formed (tasks (tracker c')) = true
    /\ prints_more c c'.
Proof.
  intro Hwf. destruct args as [|prog [|command rest]].
  - exists (mkConsole (tracker c) (stdout c ++ usage)).
    split; [apply show_help_outcome|]. split; [assumption | apply prints_more_lines].
  - exists (mkConsole (tracker c) (stdout c ++ usage)).
    split; [apply show_help_outcome|]. split; [assumption | apply prints_more_lines].
  - rewrite run_dispatch. unfold try_except.
    pose proof (dispatch_settles prog command rest c Hwf) as Hs.
    destruct (dispatch (prog :: command :: rest) c) as [[] c'|e c'];
      cbn [settles] in Hs.
    + exists c'. split; [reflexivity | exact Hs].
    + destruct Hs as [-> [Hwf' [out Hout]]]. cbn [caught_by_run].
      rewrite handler_outcome.
      eexists. split; [reflexivity|]. split; [assumption|].
      cbn [tracker stdout]. rewrite Hout, <- app_assoc. eexists. reflexivity.
Qed.

(** [run] never raises on a store of the data model.  Whatever the
    arguments (none, an unknown command, missing or extra words, an id
    that is not a number, an unknown status), [run] returns; what it had
    printed before is still there with lines added after it; and the
    tracker is left holding a store of the data model. *)
Theorem run_returns_whatever_the_arguments args c :
  well_formed (tasks (tracker c)) = true ->
  exists c',
    run args c = Return tt c'
    /\ well_formed (tasks (tracker c')) = true
    /\ prints_more c c'.
Proof. apply run_settles. Qed.

Lemma run_returns_whatever_the_arguments_witness :
  exists c', run ["task-cli"; "mark-done"; "2"; "now"] desk = Return tt c'.
Proof.
  destruct (run_returns_whatever_the_arguments
              ["task-cli"; "mark-done"; "2"; "now"] desk eq_refl)
    as [c' [E _]].
  exists c'. exact E.
Defined.

Lemma main_unfold argv c :
  main argv c
  = match load_tasks (set_tasks (fun _ => []) (tracker c)) with
    | Return _ s => run argv (mkConsole s (stdout c))
    | Raise e s => Raise e (mkConsole s (stdout c))
    end.
Proof.
  unfold main, on_tracker, TaskTracker__init__, modify.
  unfold bind at 1 2.
  destruct (load_tasks _) as [[] s|e s]; reflexivity.
Qed.



End EveryInvocation.

Section Constructed.

Import testfile.

Implicit Types (c : Console) (st : State) (t : Task) (k : string).







End Constructed.

Section DraftMarks.

Lemma draft_marks_fold (ms : list TaskTracker.mark) :
  forall t : TaskTracker.Task,
    let t' := fold_left TaskTracker.apply_mark ms t in
    TaskTracker.id t' = TaskTracker.id t
    /\ TaskTracker.taskDesc t' = TaskTracker.taskDesc t
    /\ TaskTracker.createdOn t' = TaskTracker.createdOn t
    /\ TaskTracker.status t'
       = match rev ms with
         | m :: _ => TaskTracker.status_of_mark m
         | [] => TaskTracker.status t
         end.
Proof.
  induction ms as [|m r IH] using rev_ind; intro t; cbn zeta.
  - repeat split.
  - rewrite fold_left_app, rev_app_distr. cbn [fold_left rev app].
    destruct (IH t) as [H1 [H2 [H3 _]]].
    destruct m; cbn; auto.
Qed.

(** The Task of TaskTracker.py under its methods.  The marks are
    unrestricted and the last one wins: after any run of [markTD],
    [markIP] and [markD] calls the status is that of the last call, from
    whatever status, and the id, the description and the creation time
    are as before.  [updateDesc] changes the description alone and
    commutes with every mark.  [task_dict] of the result shows the status
    of the last mark under the key status. *)
Theorem draft_marks_last_one_wins (ms : list TaskTracker.mark)
    (m : TaskTracker.mark) (t : TaskTracker.Task) (text : pyval) :
  let t' := fold_left TaskTracker.apply_mark (ms ++ [m]) t in
  t' = TaskTracker.mkTask (TaskTracker.id t) (TaskTracker.taskDesc t)
                          (TaskTracker.createdOn t)
                          (TaskTracker.status_of_mark m)
  /\ TaskTracker.task_dict t'
     = [("id", TaskTracker.id t); ("description", TaskTracker.taskDesc t);
        ("status", PStr (value (TaskTracker.status_of_mark m)));
        ("created", TaskTracker.createdOn t)]
  /\ TaskTracker.apply_mark (TaskTracker.updateDesc t text) m
     = TaskTracker.updateDesc (TaskTracker.apply_mark t m) text.
Proof.
  cbn zeta.
  destruct (draft_marks_fold (ms ++ [m]) t) as [H1 [H2 [H3 H4]]].
  rewrite rev_app_distr in H4. cbn in H4.
  assert (fold_left TaskTracker.apply_mark (ms ++ [m]) t
          = TaskTracker.mkTask (TaskTracker.id t) (TaskTracker.taskDesc t)
              (TaskTracker.createdOn t) (TaskTracker.status_of_mark m)) as E.
  { destruct (fold_left TaskTracker.apply_mark (ms ++ [m]) t) as [i d c s].
    cbn in *. now subst. }
  rewrite E. split; [reflexivity|]. split; [reflexivity|].
  destruct m; reflexivity.
Qed.

End DraftMarks.

Section Sessions.

Import testfile.

Implicit Types (c : Console) (st : State) (t : Task) (args : list string).

(** Building a tracker on a file that agrees with a store of the data
    model gives that store back, whole. *)
Lemma rebuild_synced st :
  well_formed (tasks st) = true -> synced st ->
  TaskTracker__init__ st = Return tt st.
Proof.
  intros Hwf [Hp|[Ht Hd]].
  - apply well_formed_spec in Hwf as [Hk [Hs [He _]]].
    destruct (save_then_fresh_load st Hk Hs He) as [st1 [E [Ht Hload]]].
    destruct Hp as [data [Ed Hd]].
    rewrite (save_tasks_ok _ _ Ed) in E. injection E as <-.
    specialize (Hload (tasks st) (clock st) (ticks st)).
    cbn [disk set_disk] in Hload. rewrite <- Hd in Hload.
    destruct st; exact Hload.
  - destruct st as [ts f cl k]. cbn in *. subst. reflexivity.
Qed.

Lemma try_except_tracker (body handler : M Console unit) c (st : State) :
  tracker (state_of (body c)) = st ->
  (forall c', tracker (state_of (handler c')) = tracker c') ->
  tracker (state_of (try_except body caught_by_run handler c)) = st.
Proof.
  intros Hb Hh. unfold try_except.
  destruct (body c) as [[] c'|e c']; cbn [state_of] in *; [assumption|].
  destruct (caught_by_run e); [|assumption]. now rewrite Hh.
Qed.

Lemma handler_tracker c :
  tracker (state_of ((print "Invalid arguments" ;; show_help) c)) = tracker c.
Proof. now rewrite handler_outcome. Qed.

(** A run on a store of the data model whose file agrees with the memory
    leaves them agreeing. *)
Lemma run_synced args c :
  well_formed (tasks (tracker c)) = true -> synced (tracker c) ->
  synced (tracker (state_of (run args c))).
Proof.
  intros Hwf Hsync. pose proof Hwf as Hwf'.
  apply well_formed_spec in Hwf' as [Hk [_ [He _]]].
  destruct args as [|prog [|command rest]];
    try (rewrite show_help_outcome; exact Hsync).
  rewrite run_dispatch.
  assert (forall out, dispatch (prog :: command :: rest) c
                      = Return tt (mkConsole (tracker c) out) ->
                      synced (tracker (state_of
                        (try_except (dispatch (prog :: command :: rest))
                           caught_by_run
                           (print "Invalid arguments" ;; show_help) c))))
    as Hsame.
  { intros out E. unfold try_except. rewrite E. exact Hsync. }
  assert (forall a words,
             is_id_command command = true ->
             dispatch (prog :: command :: a :: words) c
             = match int_builtin a with
               | Some n =>
                   match on_tracker (tracker_call command (PInt n) words) c with
                   | Return b c' =>
                       print ("Task " ++ str_of_int n
                              ++ (if b then success_text command
                                  else " not found")) c'
                   | Raise e c' => Raise e c'
                   end
               | None => Raise ValueError c
               end ->
             synced (tracker (state_of
               (try_except (dispatch (prog :: command :: a :: words))
                  caught_by_run
                  (print "Invalid arguments" ;; show_help) c)))) as Hid_case.
  { intros a words Hid E. unfold try_except. rewrite E.
    destruct (int_builtin a) as [n|];
      [|cbn [caught_by_run]; rewrite handler_outcome; exact Hsync].
    destruct (tracker_call_outcome command (PInt n) words (tracker c) Hid Hk He)
      as [b [st' [Ec [_ [Hfalse Htrue]]]]].
    rewrite (on_tracker_return _ _ _ _ Ec), print_outcome. cbn [state_of tracker].
    destruct b; [left; now apply Htrue | rewrite Hfalse by reflexivity; exact Hsync]. }
  destruct (is_id_command command) eqn:Hid.
  - assert (command <> "list") as Hnl.
    { apply is_id_command_cases in Hid.
      destruct Hid as [-> | [-> | [-> | ->]]]; discriminate. }
    destruct rest as [|a rest].
    + eapply Hsame. apply dispatch_unusable. right. left. auto.
    + destruct (String.eqb_spec command "update") as [Hu|Hu].
      * destruct rest as [|b rest].
        -- eapply Hsame. apply dispatch_unusable. right. right.
           split; [assumption | cbn; lia].
        -- apply Hid_case; [reflexivity|].
           apply dispatch_id_command; [assumption | discriminate].
      * apply Hid_case; [reflexivity|].
        apply dispatch_id_command; [assumption | intro; contradiction].
  - destruct (String.eqb_spec command "add") as [->|Hadd].
    + destruct rest as [|w ws].
      * eapply Hsame. apply dispatch_unusable. right. left.
        split; [reflexivity | discriminate].
      * unfold try_except. rewrite dispatch_add. unfold add_command, bind.
        destruct (add_task_ok (tracker c) (PStr (String.concat " " (w :: ws))) Hwf)
          as [n [t [st' [E [_ [_ [_ [Hp _]]]]]]]].
        rewrite (on_tracker_return _ _ _ _ E), print_outcome.
        left. exact Hp.
    + destruct (String.eqb_spec command "list") as [->|Hlist].
      * rewrite (try_except_tracker _ _ c (tracker c)); [exact Hsync | |].
        -- rewrite dispatch_list. apply list_command_tracker.
        -- apply handler_tracker.
      * eapply Hsame. apply dispatch_unusable. left. auto.
Qed.

(** One invocation, from a state where there is no file or where the file
    agrees with a store of the data model in memory. *)
Lemma main_settles argv c :
  disk (tracker c) = Absent
  \/ (well_formed (tasks (tracker c)) = true /\ synced (tracker c)) ->
  exists c',
    main argv c = Return tt c'
    /\ well_formed (tasks (tracker c')) = true
    /\ synced (tracker c')
    /\ prints_more c c'.
Proof.
  intro H. rewrite main_unfold.
  assert (exists st0,
             load_tasks (set_tasks (fun _ => []) (tracker c)) = Return tt st0
             /\ well_formed (tasks st0) = true /\ synced st0) as [st0 [E [Hwf Hs]]].
  { destruct H as [Hd|[Hwf Hs]].
    - exists (set_tasks (fun _ => []) (tracker c)).
      split; [|split; [reflexivity | right; split; [reflexivity | exact Hd]]].
      unfold load_tasks, bind, get_state. cbn [disk set_tasks]. now rewrite Hd.
    - exists (tracker c). split; [|split; assumption].
      pose proof (rebuild_synced _ Hwf Hs) as Hr.
      unfold TaskTracker__init__, bind, modify in Hr. exact Hr. }
  rewrite E.
  destruct (run_settles argv (mkConsole st0 (stdout c)) Hwf) as [c' [Er [Hwf' Hp]]].
  pose proof (run_synced argv (mkConsole st0 (stdout c)) Hwf Hs) as Hs'.
  rewrite Er in Hs'. exists c'. repeat split; assumption.
Qed.

(** The program run again and again.  Starting where no backing file
    exists, any sequence of invocations, each with any arguments and each
    building its own tracker from the file, returns every time.  At the
    end the tracker holds a store of the data model and the file agrees
    with it: a tracker built on the file holds exactly the same tasks, so
    nothing is lost from one invocation to the next. *)
Theorem session_from_no_file_never_fails (argvs : list (list string)) c :
  disk (tracker c) = Absent ->
  exists c',
    session argvs c = Return tt c'
    /\ prints_more c c'
    /\ (argvs <> [] ->
        well_formed (tasks (tracker c')) = true
        /\ TaskTracker__init__ (tracker c') = Return tt (tracker c')).
Proof.
  intro Hd. unfold session.
  assert (forall l c0,
             disk (tracker c0) = Absent
             \/ (well_formed (tasks (tracker c0)) = true /\ synced (tracker c0)) ->
             exists c',
               for_each l main c0 = Return tt c'
               /\ prints_more c0 c'
               /\ (l <> [] ->
                   well_formed (tasks (tracker c')) = true
                   /\ synced (tracker c'))) as Hall.
  { induction l as [|argv r IH]; intros c0 H0.
    - exists c0. split; [reflexivity|]. split; [apply prints_more_refl|].
      intro Hne. now elim Hne.
    - destruct (main_settles argv c0 H0) as [c1 [E1 [Hwf1 [Hs1 [o1 Ho1]]]]].
      destruct (IH c1 (or_intror (conj Hwf1 Hs1))) as [c2 [E2 [[o2 Ho2] Hend]]].
      exists c2. cbn [for_each]. unfold bind. rewrite E1.
      split; [exact E2|]. split.
      + exists (o1 ++ o2). now rewrite Ho2, Ho1, app_assoc.
      + intros _. destruct r as [|argv' r'].
        * injection E2 as <-. auto.
        * apply Hend. discriminate. }
  destruct (Hall argvs c (or_introl Hd)) as [c' [E [Hp Hend]]].
  exists c'. split; [exact E|]. split; [exact Hp|].
  intro Hne. destruct (Hend Hne) as [Hwf Hs].
  split; [exact Hwf | now apply rebuild_synced].
Qed.

Lemma session_from_no_file_never_fails_witness :
  exists c',
    session [["task-cli"; "add"; "buy"; "milk"]; ["task-cli"; "mark-done"; "1"];
             ["task-cli"; "list"; "done"]; ["task-cli"; "delete"; "x"]]
            (mkConsole empty_store [])
    = Return tt c'.
Proof.
  destruct (session_from_no_file_never_fails
              [["task-cli"; "add"; "buy"; "milk"]; ["task-cli"; "mark-done"; "1"];
               ["task-cli"; "list"; "done"]; ["task-cli"; "delete"; "x"]]
              (mkConsole empty_store []) eq_refl) as [c' [E _]].
  exists c'. exact E.
Defined.

End Sessions.
